(** * api_platzi_store: the catalog gateway and the account API

    A shallow embedding of [products/views.py] and [accounts/views.py].

    - Python [str] values are Rocq [string]s, one element per character
      (the few accented characters of the Spanish messages are spelled in
      UTF-8; no view inspects a message).
    - The views embedded are [product_list] and [product_delete] of
      [products/views.py] and the five API views of [accounts/views.py]:
      [register_api], [login_api], [logout_api], [user_profile_api] and
      [check_username_api].
    - Further down come the first [product_list] of the module, the form of
      [products/forms.py] with [home], [product_create] and
      [product_update], and the form views [register_view], [login_view]
      and [logout_view].
    - The views of [products/views.py] talk to a remote catalog through the
      [requests] library.  They are written in a small monad [io] whose only
      effects are an outbound HTTP call and a raised exception; [run]
      interprets a view against an arbitrary upstream server.
    - The views of [accounts/views.py] read and write the user and token
      tables.  They are written in a state-and-exception monad over [db]. *)

From Stdlib Require Import String Ascii List ZArith Lia Bool DecimalString.
Import ListNotations.
Local Open Scope string_scope.
Local Open Scope Z_scope.

(* ================================================================== *)
(** * Python values and exceptions *)
(* ================================================================== *)

Module Py.

(** The exception classes the views can meet.  [Timeout], [ConnectionError]
    and [HTTPError] are subclasses of [requests.RequestException]; the other
    ones are Django's and Python's own and derive from [Exception] only. *)
Inductive exn : Type :=
| Timeout
| ConnectionError
| HTTPError (status : Z)
| DoesNotExist
| MultipleObjectsReturned
| IntegrityError
| AssertionError
| AttributeError.

(** [isinstance(e, requests.RequestException)] *)
Definition RequestException (e : exn) : bool :=
  match e with
  | Timeout | ConnectionError | HTTPError _ => true
  | _ => false
  end.

(** [isinstance(e, Exception)] *)
Definition Exception (_ : exn) : bool := true.

(** What a call of a view function ends in. *)
Inductive outcome (A : Type) : Type :=
| Returned (a : A)
| Raised (e : exn).
Arguments Returned {A} a.
Arguments Raised {A} e.

(** [str(n)] for an [int]. *)
Definition str (n : Z) : string := NilZero.string_of_int (Z.to_int n).

(** [needle in s] for two [str]: [needle] occurs in [s] as a contiguous run. *)
Fixpoint contains (needle s : string) : bool :=
  String.prefix needle s ||
  match s with
  | EmptyString => false
  | String _ s' => contains needle s'
  end.

(** The meaning of [contains], as a proposition. *)
Definition Substring (needle s : string) : Prop :=
  exists before after, s = (before ++ needle ++ after)%string.

(** [str.lower] and [str.strip] follow the Unicode tables of the interpreter;
    the views are embedded over any pair of such methods. *)
Class StrMethods : Type := {
  lower : string -> string;
  strip : string -> string
}.

(** The two methods on ASCII text, where they are: letters [A]-[Z] move to
    [a]-[z]; the characters with [isspace()] are 9-13, 28-31 and 32. *)
Definition ascii_lower_char (c : ascii) : ascii :=
  let n := nat_of_ascii c in
  if ((65 <=? n) && (n <=? 90))%nat then ascii_of_nat (n + 32) else c.

Fixpoint ascii_lower (s : string) : string :=
  match s with
  | EmptyString => EmptyString
  | String c s' => String (ascii_lower_char c) (ascii_lower s')
  end.

Definition ascii_isspace (c : ascii) : bool :=
  let n := nat_of_ascii c in
  (((9 <=? n) && (n <=? 13)) || ((28 <=? n) && (n <=? 32)))%nat.

Fixpoint ascii_lstrip (s : string) : string :=
  match s with
  | EmptyString => EmptyString
  | String c s' => if ascii_isspace c then ascii_lstrip s' else s
  end.

Fixpoint ascii_rstrip (s : string) : string :=
  match s with
  | EmptyString => EmptyString
  | String c s' =>
      match ascii_rstrip s' with
      | EmptyString => if ascii_isspace c then EmptyString
                       else String c EmptyString
      | r => String c r
      end
  end.

Definition ascii_strip (s : string) : string := ascii_rstrip (ascii_lstrip s).

Definition AsciiStr : StrMethods :=
  {| lower := ascii_lower; strip := ascii_strip |}.

(** [sorted({...})]: the distinct strings of a list, in ascending order. *)
Fixpoint insert_sorted (x : string) (l : list string) : list string :=
  match l with
  | [] => [x]
  | y :: l' =>
      match String.compare x y with
      | Lt => x :: l
      | Eq => l
      | Gt => y :: insert_sorted x l'
      end
  end.

Definition sorted_set (l : list string) : list string :=
  fold_right insert_sorted [] l.

(** [QueryDict]: the key/value pairs of a query string or a form body, in the
    order sent.  [QueryDict.get(key, default)] returns the last value sent
    under [key]. *)
Definition QueryDict : Type := list (string * string).

Fixpoint QueryDict_get (d : QueryDict) (key default : string) : string :=
  match d with
  | [] => default
  | (k, v) :: d' =>
      let later := QueryDict_get d' key default in
      if (k =? key)%string
      then (if existsb (fun kv => (fst kv =? key)%string) d' then later else v)
      else later
  end.

End Py.

(* ================================================================== *)
(** * Outbound HTTP: the [requests] library *)
(* ================================================================== *)

Module Http.
Import Py.

Inductive verb : Type := GET | POST | PUT | DELETE.

(** One outbound call: [requests.<verb>(url, timeout=...)]. *)
Record http_call : Type := {
  call_verb : verb;
  call_url : string;
  call_timeout : Z
}.

Section Requests.
(** [J] is the type of decoded JSON bodies. *)
Variable J : Type.

(** [requests.Response]: the status line and the decoded body. *)
Record Response : Type := {
  status_code : Z;
  json : J
}.

(** What comes back for a call: no answer in time, no connection, or an
    answer. *)
Inductive reply : Type :=
| TimedOut
| Unreachable
| Answered (r : Response).

(** Programs that issue calls, raise and return. *)
Inductive io (A : Type) : Type :=
| Ret (a : A)
| Raise (e : exn)
| Call (c : http_call) (k : reply -> io A).
Arguments Ret {A} a.
Arguments Raise {A} e.
Arguments Call {A} c k.

Fixpoint bind {A B : Type} (m : io A) (f : A -> io B) : io B :=
  match m with
  | Ret a => f a
  | Raise e => Raise e
  | Call c k => Call c (fun r => bind (k r) f)
  end.

(** [try: body / except <class>: handler] *)
Fixpoint try_except {A : Type} (body : io A) (class : exn -> bool)
         (handler : io A) : io A :=
  match body with
  | Ret a => Ret a
  | Raise e => if class e then handler else Raise e
  | Call c k => Call c (fun r => try_except (k r) class handler)
  end.

(** [requests.get], [requests.delete]: the call, and the exception of the
    library when no answer comes back. *)
Definition request (v : verb) (url : string) (timeout : Z) : io Response :=
  Call {| call_verb := v; call_url := url; call_timeout := timeout |}
       (fun r => match r with
                 | TimedOut => Raise Timeout
                 | Unreachable => Raise ConnectionError
                 | Answered resp => Ret resp
                 end).

Definition requests_get : string -> Z -> io Response := request GET.
Definition requests_delete : string -> Z -> io Response := request DELETE.

(** [Response.raise_for_status()]: [HTTPError] for a 4xx or 5xx status, and
    for these only. *)
Definition raise_for_status (resp : Response) : io unit :=
  if (400 <=? status_code resp) && (status_code resp <? 600)
  then Raise (HTTPError (status_code resp))
  else Ret tt.

(** ** Running a program against an upstream server

    The server is any state machine answering calls. *)
Section Run.
Variable W : Type.
Variable serve : W -> http_call -> W * reply.

(** The final server state, the calls issued in order, and the outcome. *)
Fixpoint run {A : Type} (m : io A) (w : W)
  : W * list http_call * outcome A :=
  match m with
  | Ret a => (w, [], Returned a)
  | Raise e => (w, [], Raised e)
  | Call c k =>
      let '(w1, r) := serve w c in
      let '(w2, calls, o) := run (k r) w1 in
      (w2, c :: calls, o)
  end.
End Run.

(** A server that answers from a script, and stops answering after it. *)
Definition scripted (script : list reply) (_ : http_call)
  : list reply * reply :=
  match script with
  | [] => ([], TimedOut)
  | r :: script' => (script', r)
  end.

End Requests.

Arguments status_code {J} r.
Arguments json {J} r.
Arguments TimedOut {J}.
Arguments Unreachable {J}.
Arguments Answered {J} r.
Arguments Ret {J A} a.
Arguments Raise {J A} e.
Arguments Call {J A} c k.
Arguments bind {J A B} m f.
Arguments try_except {J A} body class handler.
Arguments requests_get {J} _ _.
Arguments requests_delete {J} _ _.
Arguments raise_for_status {J} resp.
Arguments run {J W} serve {A} m w.
Arguments scripted {J} script _.

End Http.

Declare Scope io_scope.
Delimit Scope io_scope with io.
Notation "x <- m ;; k" := (Http.bind m (fun x => k))
  (at level 61, m at next level, right associativity) : io_scope.
Notation "m ;;; k" := (Http.bind m (fun _ => k))
  (at level 61, right associativity) : io_scope.

(* ================================================================== *)
(** * products/views.py *)
(* ================================================================== *)

Module Products.
Import Py Http.

(** The fields of a remote product that the views read:
    [p['id']], [p['title']], [p['category']['name']].  The body of an answer
    is taken as already decoded into such products. *)
Record Category : Type := { name : string }.
Record Product : Type := {
  id : Z;
  title : string;
  category : Category
}.

(** The inbound request: [request.method] and [request.GET]. *)
Record HttpRequest : Type := {
  method : string;
  GET_ : QueryDict
}.

(** The template context built by [product_list]. *)
Record Context : Type := {
  productos : list Product;
  categorias : list string;
  selected : string
}.

(** [render(request, template, context)] and [redirect(name)]. *)
Inductive HttpResponse : Type :=
| render (template : string) (context : Context)
| redirect (to : string).

Definition base_url : string := "https://api.escuelajs.co/api/v1/".

Section Views.
Context {SM : StrMethods}.

(** Line 162-164: the test of the search comprehension. *)
Definition matches_query (query : string) (p : Product) : bool :=
  contains query (lower (str (id p)))
  || contains query (lower (title p))
  || contains query (lower (name (category p))).

(** Line 155: the test of the category comprehension. *)
Definition in_category (selected : string) (p : Product) : bool :=
  (name (category p) =? selected)%string.

(** [product_list], lines 138-172: the definition bound to the name when the
    module is loaded (it replaces the one of lines 7-32). *)
Definition product_list (request : HttpRequest)
  : io (list Product) HttpResponse :=
  (productos <- try_except
       (response <- requests_get (base_url ++ "products/") 20 ;;
        raise_for_status response ;;;
        Ret (json response))
       RequestException
       (Ret []) ;;
   let categorias := sorted_set (map (fun p => name (category p)) productos) in
   let selected := QueryDict_get (GET_ request) "category" "All" in
   let productos :=
     if negb (selected =? "All")%string
     then filter (in_category selected) productos
     else productos in
   let query := lower (strip (QueryDict_get (GET_ request) "q" "")) in
   let productos :=
     if negb (query =? "")%string
     then filter (matches_query query) productos
     else productos in
   Ret (render "products/product_list.html"
          {| productos := productos;
             categorias := "All" :: categorias;
             selected := selected |}))%io.

(** [product_delete], lines 125-136. *)
Definition product_delete (request : HttpRequest) (product_id : Z)
  : io (list Product) HttpResponse :=
  ((if (method request =? "POST")%string
    then try_except
           (resp <- requests_delete
                      (base_url ++ "products/" ++ str product_id) 5 ;;
            raise_for_status resp)
           RequestException
           (Ret tt)
    else Ret tt) ;;;
   Ret (redirect "products:product_list"))%io.

(** The two comprehensions of lines 151-165, on a received list. *)
Definition filtered (request : HttpRequest) (l : list Product)
  : list Product :=
  let selected := QueryDict_get (GET_ request) "category" "All" in
  let by_category :=
    if negb (selected =? "All")%string
    then filter (in_category selected) l else l in
  let query := lower (strip (QueryDict_get (GET_ request) "q" "")) in
  if negb (query =? "")%string
  then filter (matches_query query) by_category else by_category.

End Views.

(** ** Vocabulary for the statements about the views *)

(** The one call of [product_list], and the one of [product_delete]. *)
Definition products_call : http_call :=
  {| call_verb := GET;
     call_url := base_url ++ "products/";
     call_timeout := 20 |}.

Definition delete_call (product_id : Z) : http_call :=
  {| call_verb := DELETE;
     call_url := base_url ++ "products/" ++ str product_id;
     call_timeout := 5 |}.

(** "Timeout or non-2xx status", in the words of the specification. *)
Definition timeout_or_non_2xx (r : reply (list Product)) : bool :=
  match r with
  | TimedOut | Unreachable => true
  | Answered resp =>
      negb ((200 <=? status_code resp) && (status_code resp <? 300))
  end.

(** No answer, or an answer with a 4xx or 5xx status: the replies for which
    [requests] raises. *)
Definition no_answer_or_4xx_5xx (r : reply (list Product)) : bool :=
  match r with
  | TimedOut | Unreachable => true
  | Answered resp =>
      (400 <=? status_code resp) && (status_code resp <? 600)
  end.

(** The list left by the [try] block of lines 139-144. *)
Definition received (r : reply (list Product)) : list Product :=
  match r with
  | Answered resp => if no_answer_or_4xx_5xx r then [] else json resp
  | _ => []
  end.

(** An answer with status 200 and the given list as its body. *)
Definition ok (l : list Product) : reply (list Product) :=
  Answered {| status_code := 200; json := l |}.

(** What a view hands to the template as [productos], if it renders. *)
Definition rendered_productos (o : outcome HttpResponse)
  : option (list Product) :=
  match o with
  | Returned (render _ context) => Some (productos context)
  | _ => None
  end.

(** The products of the worked example of the specification. *)
Definition shirt : Product :=
  {| id := 1; title := "Shirt"; category := {| name := "Clothes" |} |}.
Definition mug : Product :=
  {| id := 2; title := "Mug"; category := {| name := "Home" |} |}.

End Products.

(* ================================================================== *)
(** * The tables behind accounts/views.py *)
(* ================================================================== *)

Module Db.
Import Py.

(** ** Tables *)

(** A row of [django.contrib.auth.models.User]; [password] is the stored
    hash. *)
Record User : Type := {
  pk : Z;
  username : string;
  email : string;
  password : string;
  first_name : string;
  last_name : string
}.

(** A row of [rest_framework.authtoken.models.Token]: [key] is the primary
    key, [user_id] the foreign key to [User].  The table is kept as a plain
    list of rows, so that nothing but the views decides how many rows a user
    has. *)
Record Token : Type := {
  key : string;
  user_id : Z
}.

Record db : Type := {
  users : list User;
  tokens : list Token
}.

Definition empty_db : db := {| users := []; tokens := [] |}.

(** ** JSON payloads: the [dict] literals handed to [Response] *)

(** [serializer.errors]: for each rejected field, the codes of its errors. *)
Definition Errors : Type := list (string * list string).

Inductive scalar : Type :=
| Bool (b : bool)
| Str (s : string)
| Int (n : Z).

(** A value of a payload: a scalar, a flat object ([UserSerializer(...).data])
    or the errors of a serializer. *)
Inductive value : Type :=
| Scalar (x : scalar)
| Object (fields : list (string * scalar))
| ErrorDict (e : Errors).
Coercion Scalar : scalar >-> value.

Definition dict : Type := list (string * value).

Fixpoint dict_get (d : dict) (k : string) : option value :=
  match d with
  | [] => None
  | (k', v) :: d' => if (k' =? k)%string then Some v else dict_get d' k
  end.

(** ** Requests and responses *)

(** [request.method], [request.GET], [request.data] and [request.user]
    ([None] is the anonymous user), as the framework hands them to a view. *)
Record HttpRequest : Type := {
  method : string;
  GET_ : QueryDict;
  data : QueryDict;
  user : option User
}.

(** [Response(data, status=...)] *)
Record Response : Type := {
  response_data : dict;
  status : Z
}.

Definition HTTP_200_OK : Z := 200.
Definition HTTP_201_CREATED : Z := 201.
Definition HTTP_400_BAD_REQUEST : Z := 400.
Definition HTTP_401_UNAUTHORIZED : Z := 401.
Definition HTTP_405_METHOD_NOT_ALLOWED : Z := 405.

(** ** The monad of the views: the tables as state, and exceptions.
    A write made before an exception stays (autocommit). *)

Definition M (A : Type) : Type := db -> db * outcome A.

Definition ret {A : Type} (a : A) : M A := fun d => (d, Returned a).
Definition raise_ {A : Type} (e : exn) : M A := fun d => (d, Raised e).

Definition bind {A B : Type} (m : M A) (f : A -> M B) : M B :=
  fun d =>
    match m d with
    | (d', Returned a) => f a d'
    | (d', Raised e) => (d', Raised e)
    end.

(** [try: body / except <class> as e: handler(e)] *)
Definition try_except {A : Type} (body : M A) (class : exn -> bool)
           (handler : exn -> M A) : M A :=
  fun d =>
    match body d with
    | (d', Raised e) => if class e then handler e d' else (d', Raised e)
    | r => r
    end.

(** Work on the user table alone, lifted to the two tables. *)
Definition Mu (A : Type) : Type := list User -> list User * outcome A.

Definition on_users {A : Type} (m : Mu A) : M A :=
  fun d =>
    let '(us, o) := m (users d) in
    ({| users := us; tokens := tokens d |}, o).

End Db.

Declare Scope db_scope.
Delimit Scope db_scope with db.
Notation "x <- m ;; k" := (Db.bind m (fun x => k))
  (at level 61, m at next level, right associativity) : db_scope.
Notation "m ;;; k" := (Db.bind m (fun _ => k))
  (at level 61, right associativity) : db_scope.

(* ================================================================== *)
(** * accounts/views.py *)
(* ================================================================== *)

Module Accounts.
Import Py Db.
Local Open Scope db_scope.

(** ** What the views import

    The views are embedded over any implementation of the three serializers
    of [accounts/serializers.py]:
    - [UserRegistrationSerializer(data=d)]: [.errors] (empty exactly when
      [.is_valid()]) and [.save()], which works on the user table;
    - [UserLoginSerializer(data=d)]: either [.errors], or the user put in
      [.validated_data['user']];
    - [UserSerializer(user).data]. *)
Class Serializers : Type := {
  UserRegistrationSerializer_errors : list User -> QueryDict -> Errors;
  UserRegistrationSerializer_save : QueryDict -> Mu User;
  UserLoginSerializer_validate : list User -> QueryDict -> Errors + User;
  UserSerializer_data : User -> list (string * scalar)
}.

Definition is_valid (errors : Errors) : bool :=
  match errors with [] => true | _ :: _ => false end.

(** ** The token manager *)

Definition rows_of (uid : Z) (ts : list Token) : list Token :=
  filter (fun t => user_id t =? uid) ts.

(** [Token.objects.get(user=user)] *)
Definition Token_objects_get (u : User) : M Token :=
  fun d =>
    match rows_of (pk u) (tokens d) with
    | [] => (d, Raised DoesNotExist)
    | [t] => (d, Returned t)
    | _ :: _ :: _ => (d, Raised MultipleObjectsReturned)
    end.

(** [Token.objects.create(user=user)]: a row under the key that
    [Token.generate_key()] draws.  The insert is refused when the key is
    taken (primary key) or the user row is missing (foreign key). *)
Definition Token_objects_create (u : User) (generated : string) : M Token :=
  fun d =>
    if existsb (fun t => (key t =? generated)%string) (tokens d)
       || negb (existsb (fun u' => pk u' =? pk u) (users d))
    then (d, Raised IntegrityError)
    else
      let t := {| key := generated; user_id := pk u |} in
      ({| users := users d; tokens := (tokens d ++ [t])%list |}, Returned t).

(** [Token.objects.get_or_create(user=user)] *)
Definition Token_objects_get_or_create (u : User) (generated : string)
  : M (Token * bool) :=
  try_except
    (t <- Token_objects_get u ;; ret (t, false))
    (fun e => match e with DoesNotExist => true | _ => false end)
    (fun _ => t <- Token_objects_create u generated ;; ret (t, true)).

(** [user.auth_token]: the reverse accessor of the one-to-one field. *)
Definition auth_token (u : User) : M Token := Token_objects_get u.

(** [token.delete()]: removes the row with that primary key. *)
Definition Token_delete (t : Token) : M unit :=
  fun d =>
    ({| users := users d;
        tokens :=
          filter (fun t' => negb (key t' =? key t)%string) (tokens d) |},
     Returned tt).

(** [User.objects.filter(username=name).exists()] *)
Definition User_objects_filter_exists (name : string) : M bool :=
  fun d => (d, Returned (existsb (fun u => (username u =? name)%string)
                                 (users d))).

Definition User_objects_all : M (list User) :=
  fun d => (d, Returned (users d)).

(** [django.contrib.auth.login] and [logout] write the session store, which
    is no part of [db]. *)
Definition login (request : HttpRequest) (u : User) : M unit := ret tt.
Definition logout (request : HttpRequest) : M unit := ret tt.

(** [str(e)]: the class of the exception stands for its text. *)
Definition exn_str (e : exn) : string :=
  match e with
  | Timeout => "Timeout"
  | ConnectionError => "ConnectionError"
  | HTTPError _ => "HTTPError"
  | DoesNotExist => "RelatedObjectDoesNotExist"
  | MultipleObjectsReturned => "MultipleObjectsReturned"
  | IntegrityError => "IntegrityError"
  | AssertionError => "AssertionError"
  | AttributeError => "AttributeError"
  end.

(** ** The decorators *)

Definition dquote : string := String (ascii_of_nat 34) EmptyString.

Definition view : Type := HttpRequest -> M Response.

Definition AllowAny (_ : HttpRequest) : bool := true.

Definition IsAuthenticated (request : HttpRequest) : bool :=
  match user request with Some _ => true | None => false end.

(** [@api_view(methods)] over [@permission_classes([permission])]: the
    permission is checked first, then the method.  [OPTIONS] is answered by
    the framework itself (its metadata payload is left out). *)
Definition api_view (http_method_names : list string)
           (permission : HttpRequest -> bool) (handler : view) : view :=
  fun request =>
    if negb (permission request) then
      ret {| response_data :=
               [("detail",
                 Scalar (Str "Authentication credentials were not provided."))];
             status := HTTP_401_UNAUTHORIZED |}
    else if (method request =? "OPTIONS")%string then
      ret {| response_data := []; status := HTTP_200_OK |}
    else if existsb (String.eqb (method request)) http_method_names then
      handler request
    else
      ret {| response_data :=
               [("detail",
                 Scalar (Str ("Method " ++ dquote ++ method request ++ dquote
                              ++ " not allowed.")))];
             status := HTTP_405_METHOD_NOT_ALLOWED |}.

(** ** The views *)

Section Views.
Context {S : Serializers}.

(** [register_api], lines 17-63.  A view that falls off its end returns
    [None], which the framework refuses with an [AssertionError]. *)
Definition register_api (generated : string) : view :=
  api_view ["POST"] AllowAny (fun request =>
    if (method request =? "POST")%string then
      rows <- User_objects_all ;;
      let serializer_errors :=
        UserRegistrationSerializer_errors rows (data request) in
      if is_valid serializer_errors then
        user <- on_users (UserRegistrationSerializer_save (data request)) ;;
        tc <- Token_objects_get_or_create user generated ;;
        let token := fst tc in
        let response_data : dict :=
          [("success", Scalar (Bool true));
           ("message", Scalar (Str "Usuario registrado satisfactoriamente"));
           ("user", Object (UserSerializer_data user));
           ("token", Scalar (Str (key token)))] in
        ret {| response_data := response_data; status := HTTP_201_CREATED |}
      else
        ret {| response_data :=
                 [("success", Scalar (Bool false));
                  ("message", Scalar (Str "Error en el registro"));
                  ("errors", ErrorDict serializer_errors)];
               status := HTTP_400_BAD_REQUEST |}
    else raise_ AssertionError).

(** [login_api], lines 66-114. *)
Definition login_api (generated : string) : view :=
  api_view ["POST"] AllowAny (fun request =>
    if (method request =? "POST")%string then
      rows <- User_objects_all ;;
      match UserLoginSerializer_validate rows (data request) with
      | inr user =>
          login request user ;;;
          tc <- Token_objects_get_or_create user generated ;;
          let token := fst tc in
          let response_data : dict :=
            [("success", Scalar (Bool true));
             ("message", Scalar (Str "Autenticación satisfactoria"));
             ("user", Object (UserSerializer_data user));
             ("token", Scalar (Str (key token)))] in
          ret {| response_data := response_data; status := HTTP_200_OK |}
      | inl serializer_errors =>
          ret {| response_data :=
                   [("success", Scalar (Bool false));
                    ("message", Scalar (Str "Error en la autenticación"));
                    ("errors", ErrorDict serializer_errors)];
                 status := HTTP_400_BAD_REQUEST |}
      end
    else raise_ AssertionError).

(** [logout_api], lines 117-148. *)
Definition logout_api : view :=
  api_view ["POST"] IsAuthenticated (fun request =>
    if (method request =? "POST")%string then
      try_except
        (match user request with
         | Some u => t <- auth_token u ;; Token_delete t
         | None => raise_ AttributeError
         end ;;;
         logout request ;;;
         ret {| response_data :=
                  [("success", Scalar (Bool true));
                   ("message", Scalar (Str "Sesión cerrada exitosamente"))];
                status := HTTP_200_OK |})
        Exception
        (fun e =>
           ret {| response_data :=
                    [("success", Scalar (Bool false));
                     ("message", Scalar (Str "Error al cerrar sesión"));
                     ("error", Scalar (Str (exn_str e)))];
                  status := HTTP_400_BAD_REQUEST |})
    else raise_ AssertionError).

(** [user_profile_api], lines 151-171. *)
Definition user_profile_api : view :=
  api_view ["GET"] IsAuthenticated (fun request =>
    if (method request =? "GET")%string then
      match user request with
      | Some u =>
          ret {| response_data :=
                   [("success", Scalar (Bool true));
                    ("user", Object (UserSerializer_data u))];
                 status := HTTP_200_OK |}
      | None => raise_ AttributeError
      end
    else raise_ AssertionError).

(** [check_username_api], lines 174-203. *)
Definition check_username_api : view :=
  api_view ["GET"] AllowAny (fun request =>
    let username := QueryDict_get (GET_ request) "username" "" in
    if (username =? "")%string then
      ret {| response_data :=
               [("success", Scalar (Bool false));
                ("message",
                 Scalar (Str "Debe proporcionar un nombre de usuario"))];
             status := HTTP_400_BAD_REQUEST |}
    else
      exists_ <- User_objects_filter_exists username ;;
      ret {| response_data :=
               [("success", Scalar (Bool true));
                ("available", Scalar (Bool (negb exists_)));
                ("message",
                 Scalar (Str (if exists_
                              then "Nombre de usuario no disponible"
                              else "Nombre de usuario disponible")))];
             status := HTTP_200_OK |}).

(** ** Sequences of calls *)

(** One inbound call of the account API.  [generated] is the key that
    [Token.generate_key()] would draw during the call. *)
Inductive op : Type :=
| Register (generated : string) (request : HttpRequest)
| Login (generated : string) (request : HttpRequest)
| Logout (request : HttpRequest)
| Profile (request : HttpRequest)
| CheckUsername (request : HttpRequest).

Definition dispatch (o : op) : M Response :=
  match o with
  | Register g r => register_api g r
  | Login g r => login_api g r
  | Logout r => logout_api r
  | Profile r => user_profile_api r
  | CheckUsername r => check_username_api r
  end.

(** The tables after a call, whatever the call ends in. *)
Definition step (d : db) (o : op) : db := fst (dispatch o d).

Definition exec (d : db) (ops : list op) : db := fold_left step ops d.

Inductive reachable : db -> Prop :=
| reachable_empty : reachable empty_db
| reachable_step d o : reachable d -> reachable (step d o).

Definition is_logout (o : op) : bool :=
  match o with Logout _ => true | _ => false end.

End Views.

(** ** Vocabulary for the statements about the views *)

(** No user has two rows in the token table. *)
Definition at_most_one_token (d : db) : Prop :=
  forall uid : Z, (length (rows_of uid (tokens d)) <= 1)%nat.

(** A computation that leaves the tables with property [P] if it finds them
    with it, whatever it ends in. *)
Definition preserves {A : Type} (P : db -> Prop) (m : M A) : Prop :=
  forall d, P d -> P (fst (m d)).

(** The user found under [name] is [u], and the one token row of [u] is
    [tk]. *)
Definition tracked (name : string) (u : User) (tk : Token) (d : db) : Prop :=
  find (fun u' => (username u' =? name)%string) (users d) = Some u
  /\ rows_of (pk u) (tokens d) = [tk].

(** A request with the given method and nothing else. *)
Definition bare (m : string) : HttpRequest :=
  {| method := m; GET_ := []; data := []; user := None |}.

End Accounts.

(* ================================================================== *)
(** * accounts/serializers.py, from the specification *)
(* ================================================================== *)

Module AccountsSerializers.
Import Py Db Accounts.

(** [django.contrib.auth.hashers]: the hash stored for a raw password, and
    the test of a raw password against a stored hash. *)
Class Hashers : Type := {
  make_password : string -> string;
  check_password : string -> string -> bool
}.

(** [data.get(name)], an absent field reading as the empty string. *)
Definition field (d : QueryDict) (k : string) : string :=
  QueryDict_get d k "".

Definition required (d : QueryDict) (k : string) : Errors :=
  if (field d k =? "")%string then [(k, ["required"])] else [].

(** The next value of the automatic primary key. *)
Definition next_pk (rows : list User) : Z :=
  1 + fold_right Z.max 0 (map pk rows).

Section Spec.
Context {H : Hashers}.

(** Modelled from the spec: [UserRegistrationSerializer.is_valid] and
    [.errors] of accounts/serializers.py, which is not among the sources.
    Section 4.1: register "fails with ValidationError on duplicate username,
    mismatched confirmation, or weak password (<8 chars)"; section 6: the
    body is [{username,email,password,password2,first_name?,last_name?}]. *)
Definition registration_errors (rows : list User) (d : QueryDict) : Errors :=
  ((if (field d "username" =? "")%string then [("username", ["required"])]
    else if existsb (fun u => (username u =? field d "username")%string) rows
         then [("username", ["unique"])]
         else [])
   ++ required d "email"
   ++ (if (field d "password" =? "")%string then [("password", ["required"])]
       else if (String.length (field d "password") <? 8)%nat
            then [("password", ["min_length"])]
            else if negb (field d "password" =? field d "password2")%string
                 then [("password", ["password_mismatch"])]
                 else [])
   ++ required d "password2")%list.

(** Modelled from the spec: [UserRegistrationSerializer.save] of
    accounts/serializers.py.  Section 4.1: register "creates User with hashed
    password"; section 3: the username is unique. *)
Definition registration_save (d : QueryDict) : Mu User :=
  fun rows =>
    if existsb (fun u => (username u =? field d "username")%string) rows
    then (rows, Raised IntegrityError)
    else
      let u := {| pk := next_pk rows;
                  username := field d "username";
                  email := field d "email";
                  password := make_password (field d "password");
                  first_name := field d "first_name";
                  last_name := field d "last_name" |} in
      ((rows ++ [u])%list, Returned u).

(** Modelled from the spec: [authenticate], as [UserLoginSerializer] of
    accounts/serializers.py uses it.  Section 4.1: login "authenticates
    against stored hash". *)
Definition authenticate (rows : list User) (name raw : string)
  : option User :=
  match find (fun u => (username u =? name)%string) rows with
  | Some u => if check_password raw (password u) then Some u else None
  | None => None
  end.

(** Modelled from the spec: [UserLoginSerializer.is_valid], [.errors] and
    [.validated_data] of accounts/serializers.py.  Section 4.3: "required
    username/password, no format constraints beyond presence"; section 4.1:
    login "fails with AuthError on bad credentials". *)
Definition login_validate (rows : list User) (d : QueryDict) : Errors + User :=
  match (required d "username" ++ required d "password")%list with
  | [] =>
      match authenticate rows (field d "username") (field d "password") with
      | Some u => inr u
      | None => inl [("non_field_errors", ["invalid_credentials"])]
      end
  | e :: es => inl (e :: es)
  end.

(** Modelled from the spec: [UserSerializer.data] of
    accounts/serializers.py.  Section 4.1: profile "returns current user's
    public fields"; section 3: identifier, username, email, first and last
    name. *)
Definition user_data (u : User) : list (string * scalar) :=
  [("id", Int (pk u));
   ("username", Str (username u));
   ("email", Str (email u));
   ("first_name", Str (first_name u));
   ("last_name", Str (last_name u))].

Definition SpecSerializers : Serializers :=
  {| UserRegistrationSerializer_errors := registration_errors;
     UserRegistrationSerializer_save := registration_save;
     UserLoginSerializer_validate := login_validate;
     UserSerializer_data := user_data |}.

End Spec.

(** A hasher to run the views with: the hash of a password is the password
    behind a tag. *)
Definition TagHashers : Hashers :=
  {| make_password := fun raw => ("tag$" ++ raw)%string;
     check_password := fun raw stored => (("tag$" ++ raw) =? stored)%string |}.

(** The spec-modelled serializers over that hasher. *)
Definition TagSerializers : Serializers := @SpecSerializers TagHashers.

(** Requests to run the views with. *)
Definition post (d : QueryDict) : HttpRequest :=
  {| method := "POST"; GET_ := []; data := d; user := None |}.

Definition get (q : QueryDict) : HttpRequest :=
  {| method := "GET"; GET_ := q; data := []; user := None |}.

Definition ana_registration : QueryDict :=
  [("username", "ana"); ("email", "ana@example.org");
   ("password", "s3cretpass"); ("password2", "s3cretpass")].

Definition ana_credentials : QueryDict :=
  [("username", "ana"); ("password", "s3cretpass")].

Definition ana : User :=
  {| pk := 1; username := "ana"; email := "ana@example.org";
     password := "tag$s3cretpass"; first_name := ""; last_name := "" |}.

End AccountsSerializers.

From Stdlib Require Import Sorted OrderedTypeEx DecimalZ DecimalPos.

(* ================================================================== *)
(** * products/views.py: the first [product_list] *)
(* ================================================================== *)

Module ProductsFirst.
Import Py Http Products.

(** [product_list], lines 7-32: the definition that the module binds first
    and that lines 138-172 replace.  It filters by category only. *)
Definition product_list_first (request : HttpRequest)
  : io (list Product) HttpResponse :=
  (productos <- try_except
       (response <- requests_get (base_url ++ "products/") 20 ;;
        raise_for_status response ;;;
        Ret (json response))
       RequestException
       (Ret []) ;;
   let categorias := sorted_set (map (fun p => name (category p)) productos) in
   let selected := QueryDict_get (GET_ request) "category" "All" in
   let productos :=
     if negb (selected =? "All")%string
     then filter (in_category selected) productos
     else productos in
   Ret (render "products/product_list.html"
          {| productos := productos;
             categorias := "All" :: categorias;
             selected := selected |}))%io.

(** What a view hands to the template as [categorias], if it renders. *)
Definition rendered_categorias (o : outcome HttpResponse)
  : option (list string) :=
  match o with
  | Returned (render _ context) => Some (categorias context)
  | _ => None
  end.

(** Strictly ascending in the order of [str] comparison. *)
Definition ascending (l : list string) : Prop :=
  StronglySorted (fun a b => String.compare a b = Lt) l.

End ProductsFirst.

(* ================================================================== *)
(** * products/forms.py and the form views of products/views.py *)
(* ================================================================== *)

Module Catalog.
Import Py.

(** ** Exceptions and outcomes

    The form views can raise two exceptions of Python itself besides the
    ones of [Py.exn]. *)
Inductive error : Type :=
| Library (e : exn)
| IndexError
| ValueError.

(** [isinstance(e, requests.RequestException)] *)
Definition is_RequestException (e : error) : bool :=
  match e with
  | Library e' => RequestException e'
  | _ => false
  end.

Inductive result (A : Type) : Type :=
| Done (a : A)
| Failed (e : error).
Arguments Done {A} a.
Arguments Failed {A} e.

(** ** What the framework and the interpreter provide

    [int] and [float] of Python, and the [clean] methods of Django's
    [DecimalField] and [URLField] (error codes, or the cleaned value), are
    taken as they come; [Decimal] and [Number] are the types of
    [decimal.Decimal] and of a JSON number. *)
Class Framework : Type := {
  Decimal : Type;
  Number : Type;
  float : Decimal -> Number;
  int : string -> option Z;
  DecimalField_clean :
    forall (max_digits decimal_places : Z),
      option string -> list string + Decimal;
  URLField_clean : option string -> list string + string
}.

(** ** JSON of the remote catalog *)

(** An element of [GET categories/]: [c['id']] and [c['name']]. *)
Record Category : Type := {
  cat_id : Z;
  cat_name : string
}.

Section WithFramework.
Context {F : Framework} {SM : StrMethods}.

(** The body of [GET products/<id>], a [dict] read with [.get]: a key may be
    missing.  [d_category] is the [dict] under 'category', reduced to what
    its own [.get('id')] gives. *)
Record ProductData : Type := {
  d_title : option string;
  d_price : option Number;
  d_description : option string;
  d_category : option (option Z);
  d_images : option (list string)
}.

(** The [payload] of lines 47-53 and 91-97. *)
Record Payload : Type := {
  p_title : string;
  p_price : Number;
  p_description : string;
  p_categoryId : Z;
  p_images : list string
}.

(** ** products/forms.py *)

Definition Errors : Type := list (string * list string).

(** [QueryDict.get(key)]: the last value under [key], or [None]. *)
Definition QueryDict_find (d : QueryDict) (k : string) : option string :=
  if existsb (fun kv => (fst kv =? k)%string) d
  then Some (QueryDict_get d k "")
  else None.

(** [forms.CharField(max_length=..., required=True, strip=True).clean]:
    [to_python] strips, [validate] refuses the empty value, and
    [run_validators] collects the errors of the length validator (when a
    maximum is set) and of the validator against null characters. *)
Definition CharField_clean (max_length : option nat) (value : option string)
  : list string + string :=
  let value := match value with
               | None => ""
               | Some v => strip v
               end in
  if (value =? "")%string then inl ["required"]
  else
    match
      ((match max_length with
        | Some n => if (n <? String.length value)%nat
                    then ["max_length"] else []
        | None => []
        end)
       ++ (if contains (String Ascii.zero EmptyString) value
           then ["null_characters_not_allowed"] else []))%list
    with
    | [] => inr value
    | e :: es => inl (e :: es)
    end.

(** [ChoiceField.valid_value]: the text of the value is the text of the key
    of a choice. *)
Definition valid_value (choices : list (Z * string)) (value : string)
  : bool :=
  existsb (fun kv => (value =? str (fst kv))%string) choices.

(** [forms.ChoiceField(required=True).clean] *)
Definition ChoiceField_clean (choices : list (Z * string))
           (value : option string) : list string + string :=
  let value := match value with
               | None => ""
               | Some v => v
               end in
  if (value =? "")%string then inl ["required"]
  else if valid_value choices value then inr value
       else inl ["invalid_choice"].

(** [form.cleaned_data] of a valid form. *)
Record Cleaned : Type := {
  c_title : string;
  c_price : Decimal;
  c_description : string;
  c_category : string;
  c_image : string
}.

(** The [initial] of lines 109-115. *)
Record Initial : Type := {
  i_title : option string;
  i_price : option Number;
  i_description : option string;
  i_category : option Z;
  i_image : string
}.

(** A [ProductForm] as the template receives it: the data it is bound to,
    if any; its initial values, if any; the choices of [category]; the CSS
    class of each widget; and its errors, by field ([__all__] for the ones
    of no field). *)
Record ProductForm : Type := {
  form_data : option QueryDict;
  form_initial : option Initial;
  choices : list (Z * string);
  widget_class : list (string * string);
  form_errors : Errors
}.

Definition field_names : list string :=
  ["title"; "price"; "description"; "category"; "image"].

(** The error of one field, under its name. *)
Definition field_error {A : Type} (name_ : string) (r : list string + A)
  : Errors :=
  match r with
  | inl codes => [(name_, codes)]
  | inr _ => []
  end.

(** [form.full_clean()]: every field is cleaned, in the order of the class
    body (lines 4-8); the data is [cleaned_data] when no field fails. *)
Definition full_clean (choices : list (Z * string)) (data : QueryDict)
  : Errors * option Cleaned :=
  let title := CharField_clean (Some 255%nat) (QueryDict_find data "title") in
  let price := DecimalField_clean 10 2 (QueryDict_find data "price") in
  let description := CharField_clean None (QueryDict_find data "description") in
  let category := ChoiceField_clean choices (QueryDict_find data "category") in
  let image := URLField_clean (QueryDict_find data "image") in
  ((field_error "title" title ++ field_error "price" price
    ++ field_error "description" description
    ++ field_error "category" category ++ field_error "image" image)%list,
   match title, price, description, category, image with
   | inr t, inr p, inr d, inr c, inr i =>
       Some {| c_title := t; c_price := p; c_description := d;
               c_category := c; c_image := i |}
   | _, _, _, _, _ => None
   end).

(** [ProductForm.__init__], lines 10-19: the choices are set when
    [categories] is not empty, and every widget gets the class
    [form-control] behind its (empty) classes. *)
Definition ProductForm_init (data : option QueryDict)
           (initial : option Initial) (categories : list (Z * string))
  : ProductForm :=
  {| form_data := data;
     form_initial := initial;
     choices := match categories with
                | [] => []
                | _ :: _ => categories
                end;
     widget_class := map (fun f => (f, "" ++ " form-control")) field_names;
     form_errors := [] |}.

(** [form.is_valid()]: the form with its errors, and its cleaned data when
    it is bound and has no error. *)
Definition is_valid (form : ProductForm) : ProductForm * option Cleaned :=
  match form_data form with
  | None => (form, None)
  | Some data =>
      let '(errors, cleaned) := full_clean (choices form) data in
      ({| form_data := form_data form;
          form_initial := form_initial form;
          choices := choices form;
          widget_class := widget_class form;
          form_errors := errors |},
       cleaned)
  end.

(** [form.add_error(None, message)] *)
Definition add_error (form : ProductForm) (message : string) : ProductForm :=
  {| form_data := form_data form;
     form_initial := form_initial form;
     choices := choices form;
     widget_class := widget_class form;
     form_errors := (form_errors form ++ [("__all__", [message])])%list |}.

(** ** Outbound calls, typed by the body of their answer *)

Inductive call : Type -> Type :=
| GetCategories (timeout : Z) : call (list Category)
| GetProduct (product_id : Z) (timeout : Z) : call ProductData
| PostProduct (payload : Payload) (timeout : Z) : call unit
| PutProduct (product_id : Z) (payload : Payload) (timeout : Z) : call unit.

Definition base_url : string := Products.base_url.

(** A call as it goes out: verb, URL, JSON body and timeout. *)
Record wire : Type := {
  w_verb : Http.verb;
  w_url : string;
  w_json : option Payload;
  w_timeout : Z
}.

Definition wire_of {R : Type} (c : call R) : wire :=
  match c with
  | GetCategories t =>
      {| w_verb := Http.GET; w_url := base_url ++ "categories/";
         w_json := None; w_timeout := t |}
  | GetProduct product_id t =>
      {| w_verb := Http.GET;
         w_url := base_url ++ "products/" ++ str product_id;
         w_json := None; w_timeout := t |}
  | PostProduct payload t =>
      {| w_verb := Http.POST; w_url := base_url ++ "products/";
         w_json := Some payload; w_timeout := t |}
  | PutProduct product_id payload t =>
      {| w_verb := Http.PUT;
         w_url := base_url ++ "products/" ++ str product_id;
         w_json := Some payload; w_timeout := t |}
  end.

(** Programs that issue calls, raise and return. *)
Inductive prog (A : Type) : Type :=
| Ret (a : A)
| Raise (e : error)
| Call {R : Type} (c : call R) (k : Http.reply R -> prog A).
Arguments Ret {A} a.
Arguments Raise {A} e.
Arguments Call {A R} c k.

Fixpoint bind {A B : Type} (m : prog A) (f : A -> prog B) : prog B :=
  match m with
  | Ret a => f a
  | Raise e => Raise e
  | Call c k => Call c (fun r => bind (k r) f)
  end.

(** [try: body / except <class>: handler] *)
Fixpoint try_except {A : Type} (body : prog A) (class : error -> bool)
         (handler : prog A) : prog A :=
  match body with
  | Ret a => Ret a
  | Raise e => if class e then handler else Raise e
  | Call c k => Call c (fun r => try_except (k r) class handler)
  end.

(** [requests.get], [.post], [.put]: the call, and the exception of the
    library when no answer comes back. *)
Definition requests_send {R : Type} (c : call R)
  : prog (Http.Response R) :=
  Call c (fun r => match r with
                   | Http.TimedOut => Raise (Library Timeout)
                   | Http.Unreachable => Raise (Library ConnectionError)
                   | Http.Answered resp => Ret resp
                   end).

(** [Response.raise_for_status()] *)
Definition raise_for_status {R : Type} (resp : Http.Response R)
  : prog unit :=
  if (400 <=? Http.status_code resp) && (Http.status_code resp <? 600)
  then Raise (Library (HTTPError (Http.status_code resp)))
  else Ret tt.

(** The final server state, the calls issued in order, and the outcome. *)
Fixpoint run {W A : Type}
         (serve : forall R : Type, W -> call R -> W * Http.reply R)
         (m : prog A) (w : W) : W * list wire * result A :=
  match m with
  | Ret a => (w, [], Done a)
  | Raise e => (w, [], Failed e)
  | Call c k =>
      let '(w1, r) := serve _ w c in
      let '(w2, calls, o) := run serve (k r) w1 in
      (w2, wire_of c :: calls, o)
  end.

(** ** The views *)

(** [request.method] and [request.POST]. *)
Record HttpRequest : Type := {
  method : string;
  POST_ : QueryDict
}.

(** [render(request, template, context)] with the entries 'form' and
    'product_id' of the context, where given, and [redirect(name)]. *)
Inductive HttpResponse : Type :=
| render (template : string) (form : option ProductForm)
         (product_id : option Z)
| redirect (to : string).

End WithFramework.

Arguments Ret {F A} a.
Arguments Raise {F A} e.
Arguments Call {F A R} c k.

End Catalog.

Declare Scope catalog_scope.
Delimit Scope catalog_scope with catalog.
Notation "x <- m ;; k" := (Catalog.bind m (fun x => k))
  (at level 61, m at next level, right associativity) : catalog_scope.
Notation "m ;;; k" := (Catalog.bind m (fun _ => k))
  (at level 61, right associativity) : catalog_scope.

Module CatalogViews.
Import Py Catalog.
Local Open Scope catalog_scope.

Section WithFramework.
Context {F : Framework} {SM : StrMethods}.

(** Lines 36-42 and 80-86: the categories as choices, or none on failure. *)
Definition fetch_categories (timeout : Z) : prog (list (Z * string)) :=
  try_except
    (resp_cat <- requests_send (GetCategories timeout) ;;
     raise_for_status resp_cat ;;;
     Ret (map (fun c => (cat_id c, cat_name c)) (Http.json resp_cat)))
    is_RequestException
    (Ret []).

(** Lines 47-53 and 91-97: [int(...)] raises [ValueError] on a text that is
    no integer. *)
Definition build_payload (cleaned : Cleaned) : prog Payload :=
  match int (c_category cleaned) with
  | Some categoryId =>
      Ret {| p_title := c_title cleaned;
             p_price := float (c_price cleaned);
             p_description := c_description cleaned;
             p_categoryId := categoryId;
             p_images := [c_image cleaned] |}
  | None => Raise ValueError
  end.

(** [home], lines 123-124. *)
Definition home (request : HttpRequest) : prog HttpResponse :=
  Ret (render "products/home.html" None None).

(** [product_create], lines 35-69. *)
Definition product_create (request : HttpRequest) : prog HttpResponse :=
  categories <- fetch_categories 10 ;;
  if (method request =? "POST")%string then
    let form := ProductForm_init (Some (POST_ request)) None categories in
    match is_valid form with
    | (form, Some cleaned) =>
        payload <- build_payload cleaned ;;
        try_except
          (resp_post <- requests_send (PostProduct payload 10) ;;
           raise_for_status resp_post ;;;
           Ret (redirect "products:product_list"))
          is_RequestException
          (Ret (render "products/product_create.html"
                  (Some (add_error form
                           "Error al crear el producto en la API"))
                  None))
    | (form, None) =>
        Ret (render "products/product_create.html" (Some form) None)
    end
  else
    Ret (render "products/product_create.html"
           (Some (ProductForm_init None None categories)) None).

(** Line 114: [data.get('images', [''])[0]] *)
Definition first_image (data : ProductData) : prog string :=
  match d_images data with
  | None => Ret ""
  | Some [] => Raise IndexError
  | Some (image :: _) => Ret image
  end.

(** [product_update], lines 72-121. *)
Definition product_update (request : HttpRequest) (product_id : Z)
  : prog HttpResponse :=
  fetched <- try_except
       (resp <- requests_send (GetProduct product_id 5) ;;
        raise_for_status resp ;;;
        Ret (Some (Http.json resp)))
       is_RequestException
       (Ret None) ;;
  match fetched with
  | None => Ret (redirect "products:product_list")
  | Some data =>
      categories <- fetch_categories 5 ;;
      if (method request =? "POST")%string then
        let form := ProductForm_init (Some (POST_ request)) None categories in
        match is_valid form with
        | (form, Some cleaned) =>
            payload <- build_payload cleaned ;;
            try_except
              (resp_put <- requests_send (PutProduct product_id payload 5) ;;
               raise_for_status resp_put ;;;
               Ret (redirect "products:product_list"))
              is_RequestException
              (Ret (render "products/product_update.html"
                      (Some (add_error form
                               "Error al actualizar el producto."))
                      (Some product_id)))
        | (form, None) =>
            Ret (render "products/product_update.html" (Some form)
                   (Some product_id))
        end
      else
        image <- first_image data ;;
        let initial :=
          {| i_title := d_title data;
             i_price := d_price data;
             i_description := d_description data;
             i_category := match d_category data with
                           | Some category => category
                           | None => None
                           end;
             i_image := image |} in
        Ret (render "products/product_update.html"
               (Some (ProductForm_init None (Some initial) categories))
               (Some product_id))
  end.

End WithFramework.
End CatalogViews.

Module CatalogVocabulary.
Import Py Catalog CatalogViews.

Section WithFramework.
Context {F : Framework} {SM : StrMethods}.

(** The replies for which [requests] raises: no answer, or a 4xx or 5xx
    status. *)
Definition refused {R : Type} (r : Http.reply R) : bool :=
  match r with
  | Http.TimedOut | Http.Unreachable => true
  | Http.Answered resp =>
      (400 <=? Http.status_code resp) && (Http.status_code resp <? 600)
  end.

(** The choices that [fetch_categories] draws from a reply. *)
Definition choices_of (r : Http.reply (list Category)) : list (Z * string) :=
  match r with
  | Http.Answered resp =>
      if refused r then []
      else map (fun c => (cat_id c, cat_name c)) (Http.json resp)
  | _ => []
  end.

(** The record that [product_update] draws from the reply to its first
    call, if any. *)
Definition fetched_product (r : Http.reply ProductData)
  : option ProductData :=
  match r with
  | Http.Answered resp => if refused r then None else Some (Http.json resp)
  | _ => None
  end.

(** The initial values of the edit form, for a record and its first
    image. *)
Definition initial_of (data : ProductData) (image : string) : Initial :=
  {| i_title := d_title data;
     i_price := d_price data;
     i_description := d_description data;
     i_category := match d_category data with
                   | Some category => category
                   | None => None
                   end;
     i_image := image |}.

(** The payload built from cleaned data whose category reads as [k]. *)
Definition payload_of (cleaned : Cleaned) (k : Z) : Payload :=
  {| p_title := c_title cleaned;
     p_price := float (c_price cleaned);
     p_description := c_description cleaned;
     p_categoryId := k;
     p_images := [c_image cleaned] |}.

(** The form bound to the data of a request and validated. *)
Definition validated (request : HttpRequest) (categories : list (Z * string))
  : ProductForm * option Cleaned :=
  is_valid (ProductForm_init (Some (POST_ request)) None categories).

(** A server that gives the same three answers whatever its state: to the
    request for the categories, for a product, and to a write. *)
Definition canned (rc : Http.reply (list Category))
           (rp : Http.reply ProductData) (rw : Http.reply unit)
           (R : Type) (w : unit) (c : call R) : unit * Http.reply R :=
  match c in call R' return unit * Http.reply R' with
  | GetCategories _ => (w, rc)
  | GetProduct _ _ => (w, rp)
  | PostProduct _ _ => (w, rw)
  | PutProduct _ _ _ => (w, rw)
  end.

End WithFramework.

(** A framework to run the views with: decimals and numbers are integers,
    a URL is a text that starts with [http]. *)
Definition toy_int (s : string) : option Z :=
  option_map Z.of_int (NilZero.int_of_string s).

Definition ToyFramework : Framework :=
  {| Decimal := Z;
     Number := Z;
     float := fun d => d;
     int := toy_int;
     DecimalField_clean := fun _ _ value =>
       match value with
       | None => inl ["required"]
       | Some s => match toy_int s with
                   | Some d => inr d
                   | None => inl ["invalid"]
                   end
       end;
     URLField_clean := fun value =>
       match value with
       | None => inl ["required"]
       | Some s => if String.prefix "http" s then inr s else inl ["invalid"]
       end |}.

Definition two_categories : list Category :=
  [{| cat_id := 1; cat_name := "Clothes" |};
   {| cat_id := 2; cat_name := "Home" |}].

Definition mug_form : QueryDict :=
  [("title", " Mug "); ("price", "12"); ("description", "A mug");
   ("category", "2"); ("image", "https://example.org/mug.png")].

Definition mug_payload : Payload (F := ToyFramework) :=
  @Build_Payload ToyFramework "Mug" 12 "A mug" 2
                 ["https://example.org/mug.png"].

Definition answered {R : Type} (status : Z) (body : R) : Http.reply R :=
  Http.Answered {| Http.status_code := status; Http.json := body |}.

Definition mug_data : ProductData (F := ToyFramework) :=
  @Build_ProductData ToyFramework (Some "Mug") (Some 12) (Some "A mug")
                     (Some (Some 2)) (Some ["https://example.org/mug.png"]).

Definition bare_data : ProductData (F := ToyFramework) :=
  @Build_ProductData ToyFramework (Some "Mug") (Some 12) (Some "A mug")
                     (Some (Some 2)) (Some []).

(** Three servers: one that accepts everything, one that refuses writes,
    and one that never answers. *)
Definition toy_server (product : ProductData (F := ToyFramework))
  : forall R : Type,
    unit -> call (F := ToyFramework) R -> unit * Http.reply R :=
  canned (answered 200 two_categories) (answered 200 product)
         (answered 201 tt).

Definition readonly_server
  : forall R : Type,
    unit -> call (F := ToyFramework) R -> unit * Http.reply R :=
  canned (answered 200 two_categories) (answered 200 mug_data)
         (answered 500 tt).

Definition silent_server
  : forall R : Type,
    unit -> call (F := ToyFramework) R -> unit * Http.reply R :=
  canned Http.TimedOut Http.TimedOut Http.TimedOut.

Definition toy_post : HttpRequest :=
  {| method := "POST"; POST_ := mug_form |}.

Definition toy_get : HttpRequest :=
  {| method := "GET"; POST_ := [] |}.

(** The valid form and the cleaned data of [toy_post]. *)
Definition mug_cleaned : Cleaned (F := ToyFramework) :=
  @Build_Cleaned ToyFramework "Mug" 12 "A mug" "2"
                 "https://example.org/mug.png".

Definition mug_bound_form : ProductForm (F := ToyFramework) :=
  {| form_data := Some mug_form;
     form_initial := None;
     choices := [(1, "Clothes"); (2, "Home")];
     widget_class := map (fun f => (f, " form-control")) field_names;
     form_errors := [] |}.

End CatalogVocabulary.

(* ================================================================== *)
(** * accounts/views.py: the views based on forms *)
(* ================================================================== *)

Module AccountsWeb.
Import Py Db Accounts.

(** ** Effects beside the tables

    [login] and [logout] of [django.contrib.auth] write the session
    ([login] also stamps the time of the login on the user, a column that
    the rows of [User] here do not carry), and [messages.success] and
    [messages.info] queue a message for the next page. *)
Inductive effect : Type :=
| LoggedIn (u : User)
| LoggedOut
| Message (level text extra_tags : string).

(** The monad of the form views: the tables as state, the effects in
    order, and exceptions. *)
Definition Wm (A : Type) : Type := db -> db * list effect * outcome A.

Definition ret {A : Type} (a : A) : Wm A := fun d => (d, [], Returned a).

Definition bind {A B : Type} (m : Wm A) (f : A -> Wm B) : Wm B :=
  fun d =>
    match m d with
    | (d1, es, Returned a) =>
        let '(d2, es', o) := f a d1 in (d2, (es ++ es')%list, o)
    | (d1, es, Raised e) => (d1, es, Raised e)
    end.

Definition lift {A : Type} (m : M A) : Wm A :=
  fun d => let '(d1, o) := m d in (d1, [], o).

Definition tell (e : effect) : Wm unit := fun d => (d, [e], Returned tt).

Definition login (request : HttpRequest) (u : User) : Wm unit :=
  tell (LoggedIn u).

Definition logout (request : HttpRequest) : Wm unit := tell LoggedOut.

Definition messages_success (request : HttpRequest) (text : string)
           (extra_tags : string) : Wm unit :=
  tell (Message "success" text extra_tags).

Definition messages_info (request : HttpRequest) (text : string)
  : Wm unit :=
  tell (Message "info" text "").

(** ** What the views import

    [form.cleaned_data] of a valid [UserRegistrationForm]: the view reads
    'username', 'email' and 'password1' by index and 'first_name' and
    'last_name' with [.get(..., '')]. *)
Record RegistrationData : Type := {
  cd_username : string;
  cd_email : string;
  cd_password1 : string;
  cd_first_name : option string;
  cd_last_name : option string
}.

(** [form.cleaned_data] of a valid [UserLoginForm], read with [.get]. *)
Record LoginData : Type := {
  cd_login_username : option string;
  cd_login_password : option string
}.

(** The two forms of [accounts/forms.py] (their errors on bound data, empty
    exactly when [is_valid()], and their cleaned data), and
    [User.objects.create_user] and [authenticate] of Django, in any
    implementation.  [create_user] works on the user table. *)
Class Forms : Type := {
  UserRegistrationForm_errors : list User -> QueryDict -> Errors;
  UserRegistrationForm_cleaned_data : QueryDict -> RegistrationData;
  UserLoginForm_errors : list User -> QueryDict -> Errors;
  UserLoginForm_cleaned_data : QueryDict -> LoginData;
  create_user :
    forall (username email password first_name last_name : string), Mu User;
  authenticate : list User -> option string -> option string -> option User
}.

(** A form as the template receives it: the data it is bound to, if any,
    and its errors, by field ([__all__] for the ones of no field). *)
Record Form : Type := {
  form_data : option QueryDict;
  form_errors : Errors
}.

(** [render(request, template, {'form': form})] and [redirect(to)]. *)
Inductive HttpResponse : Type :=
| render (template : string) (form : Form)
| redirect (to : string).

Definition is_authenticated (request : HttpRequest) : bool :=
  match user request with Some _ => true | None => false end.

(** [dict.get(key, '')] on an optional entry. *)
Definition or_empty (v : option string) : string :=
  match v with Some s => s | None => "" end.

Declare Scope web_scope.
Delimit Scope web_scope with web.
Notation "x <- m ;; k" := (bind m (fun x => k))
  (at level 61, m at next level, right associativity) : web_scope.
Notation "m ;;; k" := (bind m (fun _ => k))
  (at level 61, right associativity) : web_scope.
Local Open Scope web_scope.

Section Views.
Context {FM : Forms}.

(** [register_view], lines 207-231. *)
Definition register_view (request : HttpRequest) : Wm HttpResponse :=
  if is_authenticated request then ret (redirect "products:home")
  else if (method request =? "POST")%string then
    rows <- lift User_objects_all ;;
    let errors := UserRegistrationForm_errors rows (data request) in
    if Accounts.is_valid errors then
      let cleaned_data := UserRegistrationForm_cleaned_data (data request) in
      user <- lift (on_users
                      (create_user (cd_username cleaned_data)
                                   (cd_email cleaned_data)
                                   (cd_password1 cleaned_data)
                                   (or_empty (cd_first_name cleaned_data))
                                   (or_empty (cd_last_name cleaned_data)))) ;;
      login request user ;;;
      messages_success request
        "Tu cuenta ha sido creada correctamente. ¡Bienvenido!"
        "register-success" ;;;
      ret (redirect "products:home")
    else
      ret (render "register.html"
             {| form_data := Some (data request); form_errors := errors |})
  else
    ret (render "register.html" {| form_data := None; form_errors := [] |}).

(** [login_view], lines 234-263. *)
Definition login_view (request : HttpRequest) : Wm HttpResponse :=
  if is_authenticated request then ret (redirect "products:home")
  else if (method request =? "POST")%string then
    rows <- lift User_objects_all ;;
    let errors := UserLoginForm_errors rows (data request) in
    if Accounts.is_valid errors then
      let cleaned_data := UserLoginForm_cleaned_data (data request) in
      let username := cd_login_username cleaned_data in
      let password := cd_login_password cleaned_data in
      match authenticate rows username password with
      | Some user =>
          login request user ;;;
          messages_success request
            ("¡Hola de nuevo, " ++ Db.username user ++ "!") "" ;;;
          let next_page := QueryDict_get (GET_ request) "next" "" in
          if negb (next_page =? "")%string then ret (redirect next_page)
          else ret (redirect "products:home")
      | None =>
          ret (render "login.html"
                 {| form_data := Some (data request);
                    form_errors :=
                      (errors
                       ++ [("__all__",
                            ["Usuario o contraseña incorrectos."])])%list |})
      end
    else
      ret (render "login.html"
             {| form_data := Some (data request); form_errors := errors |})
  else
    ret (render "login.html" {| form_data := None; form_errors := [] |}).

(** [logout_view], lines 266-276. *)
Definition logout_view (request : HttpRequest) : Wm HttpResponse :=
  if (method request =? "POST")%string then
    logout request ;;;
    messages_info request "Has cerrado sesión exitosamente." ;;;
    ret (redirect "products:home")
  else ret (redirect "products:home").

(** ** Sequences of calls of all eight views of the module *)

Context {S : Serializers}.

Inductive call : Type :=
| Api (o : op)
| RegisterView (request : HttpRequest)
| LoginView (request : HttpRequest)
| LogoutView (request : HttpRequest).

(** The tables after a call, whatever the call ends in. *)
Definition step (d : db) (c : call) : db :=
  match c with
  | Api o => Accounts.step d o
  | RegisterView r => fst (fst (register_view r d))
  | LoginView r => fst (fst (login_view r d))
  | LogoutView r => fst (fst (logout_view r d))
  end.

Inductive reachable : db -> Prop :=
| reachable_empty : reachable empty_db
| reachable_step d c : reachable d -> reachable (step d c).

End Views.
End AccountsWeb.

(* ================================================================== *)
(** * Vocabulary for further statements about the account API *)
(* ================================================================== *)

Module AccountsVocabulary.
Import Py Db Accounts.

(** No two rows of the token table carry the same key. *)
Definition keys_unique (d : db) : Prop := NoDup (map key (tokens d)).

Definition is_register (o : op) : bool :=
  match o with Register _ _ => true | _ => false end.

(** An authenticated request of the given method. *)
Definition as_user (u : User) (m : string) : HttpRequest :=
  {| method := m; GET_ := []; data := []; user := Some u |}.

(** Tables to run the views on: the user of [AccountsSerializers.ana], with
    and without a token row. *)
Definition ana_token : Token := {| key := "k1"; user_id := 1 |}.

Definition ana_logged_in : db :=
  {| users := [AccountsSerializers.ana]; tokens := [ana_token] |}.

Definition ana_logged_out : db :=
  {| users := [AccountsSerializers.ana]; tokens := [] |}.

(** Forms to run the form views with: both require their username and
    password fields; users are created and authenticated as by the
    serializers of [AccountsSerializers], over its tagging hasher. *)
Definition ToyForms : AccountsWeb.Forms :=
  {| AccountsWeb.UserRegistrationForm_errors := fun _ d =>
       (AccountsSerializers.required d "username"
        ++ AccountsSerializers.required d "password1")%list;
     AccountsWeb.UserRegistrationForm_cleaned_data := fun d =>
       {| AccountsWeb.cd_username := AccountsSerializers.field d "username";
          AccountsWeb.cd_email := AccountsSerializers.field d "email";
          AccountsWeb.cd_password1 := AccountsSerializers.field d "password1";
          AccountsWeb.cd_first_name := None;
          AccountsWeb.cd_last_name := None |};
     AccountsWeb.UserLoginForm_errors := fun _ d =>
       (AccountsSerializers.required d "username"
        ++ AccountsSerializers.required d "password")%list;
     AccountsWeb.UserLoginForm_cleaned_data := fun d =>
       {| AccountsWeb.cd_login_username :=
            Some (AccountsSerializers.field d "username");
          AccountsWeb.cd_login_password :=
            Some (AccountsSerializers.field d "password") |};
     AccountsWeb.create_user := fun username_ email_ password_ first last =>
       AccountsSerializers.registration_save
         (H := AccountsSerializers.TagHashers)
         [("username", username_); ("email", email_);
          ("password", password_); ("first_name", first);
          ("last_name", last)];
     AccountsWeb.authenticate := fun rows name_ raw =>
       match name_, raw with
       | Some n, Some r =>
           AccountsSerializers.authenticate
             (H := AccountsSerializers.TagHashers) rows n r
       | _, _ => None
       end |}.

(** An anonymous POST of the credentials of [ana], sent to the login page
    with the given [next] parameter. *)
Definition ana_login_page (next : string) : HttpRequest :=
  {| method := "POST"; GET_ := [("next", next)];
     data := AccountsSerializers.ana_credentials; user := None |}.

End AccountsVocabulary.

(* ================================================================== *)
(** * Properties of products/views.py *)
(* ================================================================== *)

Module ProductsProofs.
Import Py Http Products.

(** ** The Python helpers on small inputs *)

Example str_positive : str 120 = "120".
Proof. reflexivity. Qed.

Example str_negative : str (-7) = "-7".
Proof. reflexivity. Qed.

Example contains_inside : contains "ug" "mug" = true.
Proof. reflexivity. Qed.

Example contains_empty_needle : contains "" "" = true.
Proof. reflexivity. Qed.

Example contains_not : contains "Mug" "mug" = false.
Proof. reflexivity. Qed.

Example strip_both_ends :
  ascii_strip "  Mug
 " = "Mug".
Proof. reflexivity. Qed.

Example lower_mixed : ascii_lower "MuG 42" = "mug 42".
Proof. reflexivity. Qed.

Example sorted_set_example :
  sorted_set ["Home"; "Clothes"; "Home"; "Books"]
  = ["Books"; "Clothes"; "Home"].
Proof. reflexivity. Qed.

Example QueryDict_get_last :
  QueryDict_get [("q", "a"); ("category", "x"); ("q", "b")] "q" "" = "b".
Proof. reflexivity. Qed.

Example QueryDict_get_default :
  QueryDict_get [("q", "a")] "category" "All" = "All".
Proof. reflexivity. Qed.

(** ** Substrings *)

Lemma prefix_app (q rest : string) : String.prefix q (q ++ rest) = true.
Proof.
  induction q as [| c q IH]; simpl.
  - now destruct rest.
  - destruct (ascii_dec c c) as [_ | ne]; [exact IH | now elim ne].
Qed.

Lemma prefix_split (q s : string) :
  String.prefix q s = true -> exists rest, s = (q ++ rest)%string.
Proof.
  revert s; induction q as [| c q IH]; intros s Hp.
  - now exists s.
  - destruct s as [| c' s]; simpl in Hp; [discriminate |].
    destruct (ascii_dec c c') as [-> | _]; [| discriminate].
    destruct (IH s Hp) as [rest ->].
    now exists rest.
Qed.

Lemma contains_unfold (q s : string) :
  contains q s =
  String.prefix q s ||
  match s with EmptyString => false | String _ s' => contains q s' end.
Proof. now destruct s. Qed.

Lemma contains_Substring (q s : string) :
  contains q s = true <-> Substring q s.
Proof.
  split.
  - induction s as [| c s IH]; rewrite contains_unfold; intros Hc;
      apply orb_true_iff in Hc as [Hp | Hin].
    + destruct (prefix_split _ _ Hp) as [rest E].
      now exists EmptyString, rest.
    + discriminate.
    + destruct (prefix_split _ _ Hp) as [rest E].
      now exists EmptyString, rest.
    + destruct (IH Hin) as (before & rest & ->).
      now exists (String c before), rest.
  - intros (before & rest & ->).
    induction before as [| c before IH].
    + change (EmptyString ++ q ++ rest)%string with (q ++ rest)%string.
      rewrite contains_unfold. now rewrite prefix_app.
    + change (String c before ++ q ++ rest)%string
        with (String c (before ++ q ++ rest)).
      rewrite contains_unfold. cbv beta iota.
      rewrite IH. apply orb_true_r.
Qed.

(** ** What [product_list] does with one reply *)

Section WithStrMethods.
Context {SM : StrMethods}.

Lemma run_product_list {W : Type} (serve : W -> http_call -> W * reply _)
      (w : W) (request : HttpRequest) :
  run serve (product_list request) w =
  (fst (serve w products_call), [products_call],
   Returned
     (render "products/product_list.html"
        {| productos :=
             filtered request (received (snd (serve w products_call)));
           categorias :=
             "All" :: sorted_set
                        (map (fun p => name (category p))
                             (received (snd (serve w products_call))));
           selected := QueryDict_get (GET_ request) "category" "All" |})).
Proof.
  unfold product_list, requests_get, Http.request, filtered.
  cbn [bind try_except run].
  fold products_call.
  destruct (serve w products_call) as [w' r].
  destruct r as [| | resp]; cbn; try reflexivity.
  unfold raise_for_status.
  destruct ((400 <=? status_code resp) && (status_code resp <? 600));
    reflexivity.
Qed.

(** C1 (as amended).  When the upstream list is fetched, the selected
    category is not 'All' and the search query is absent or blank,
    [product_list] renders exactly the products whose category name equals
    the selected name, in their original order. *)
Theorem product_list_category {W : Type}
        (serve : W -> http_call -> W * reply (list Product)) (w : W)
        (request : HttpRequest) (resp : Response (list Product))
        (selected : string) :
  snd (serve w products_call) = Answered resp ->
  no_answer_or_4xx_5xx (Answered resp) = false ->
  QueryDict_get (GET_ request) "category" "All" = selected ->
  selected <> "All" ->
  lower (strip (QueryDict_get (GET_ request) "q" "")) = "" ->
  rendered_productos (snd (run serve (product_list request) w))
  = Some (filter (in_category selected) (json resp))
  /\ forall p, in_category selected p = true <-> name (category p) = selected.
Proof.
  intros Hr Hok Hsel Hne Hq.
  split.
  - rewrite run_product_list. cbn [snd rendered_productos productos].
    rewrite Hr. unfold received. rewrite Hok.
    unfold filtered. rewrite Hsel, Hq.
    apply String.eqb_neq in Hne. rewrite Hne.
    reflexivity.
  - intros p. unfold in_category. apply String.eqb_eq.
Qed.

(** C2 (as amended).  When the upstream list is fetched, the selected
    category is absent or 'All', and the search query is not blank,
    [product_list] renders exactly the products for which the trimmed,
    lower-cased query occurs in the lower-cased id, title or category name,
    in their original order. *)
Theorem product_list_search {W : Type}
        (serve : W -> http_call -> W * reply (list Product)) (w : W)
        (request : HttpRequest) (resp : Response (list Product))
        (query : string) :
  snd (serve w products_call) = Answered resp ->
  no_answer_or_4xx_5xx (Answered resp) = false ->
  QueryDict_get (GET_ request) "category" "All" = "All" ->
  lower (strip (QueryDict_get (GET_ request) "q" "")) = query ->
  query <> "" ->
  rendered_productos (snd (run serve (product_list request) w))
  = Some (filter (matches_query query) (json resp))
  /\ forall p, matches_query query p = true <->
               Substring query (lower (str (id p)))
               \/ Substring query (lower (title p))
               \/ Substring query (lower (name (category p))).
Proof.
  intros Hr Hok Hsel Hq Hne.
  split.
  - rewrite run_product_list. cbn [snd rendered_productos productos].
    rewrite Hr. unfold received. rewrite Hok.
    unfold filtered. rewrite Hsel, Hq.
    apply String.eqb_neq in Hne. rewrite Hne.
    reflexivity.
  - intros p. unfold matches_query.
    rewrite !orb_true_iff, !contains_Substring. tauto.
Qed.

(** C3 (as amended).  When the upstream request times out, finds no
    connection or is answered with a 4xx or 5xx status, [product_list]
    returns normally and renders an empty product sequence. *)
Theorem product_list_upstream_failure {W : Type}
        (serve : W -> http_call -> W * reply (list Product)) (w : W)
        (request : HttpRequest) :
  no_answer_or_4xx_5xx (snd (serve w products_call)) = true ->
  run serve (product_list request) w
  = (fst (serve w products_call), [products_call],
     Returned
       (render "products/product_list.html"
          {| productos := [];
             categorias := ["All"];
             selected := QueryDict_get (GET_ request) "category" "All" |})).
Proof.
  intros Hf. rewrite run_product_list.
  assert (E : received (snd (serve w products_call)) = []).
  { unfold received. destruct (snd (serve w products_call)); trivial.
    now rewrite Hf. }
  rewrite E. unfold filtered.
  repeat match goal with |- context [if ?b then _ else _] => destruct b end;
    reflexivity.
Qed.

End WithStrMethods.

(** The worked example of the specification: with the list of the shirt and
    the mug and [category=Clothes], only the shirt (id 1) is rendered. *)
Lemma product_list_category_witness :
  rendered_productos
    (snd (run scripted
              (product_list (SM := AsciiStr)
                 {| method := "GET"; GET_ := [("category", "Clothes")] |})
              [ok [shirt; mug]]))
  = Some [shirt].
Proof.
  apply (product_list_category (SM := AsciiStr) scripted [ok [shirt; mug]]
           {| method := "GET"; GET_ := [("category", "Clothes")] |}
           {| status_code := 200; json := [shirt; mug] |} "Clothes");
    solve [reflexivity | discriminate].
Defined.

(** C1 as stated fails: with [category=Clothes] and [q=mug] the fetched list
    of the shirt and the mug is rendered as the empty list, not as the
    products of category Clothes. *)
Lemma product_list_category_counterexample :
  let request :=
    {| method := "GET"; GET_ := [("category", "Clothes"); ("q", "mug")] |} in
  let shown :=
    rendered_productos
      (snd (run scripted (product_list (SM := AsciiStr) request)
                [ok [shirt; mug]])) in
  QueryDict_get (GET_ request) "category" "All" = "Clothes"
  /\ shown = Some []
  /\ shown <> Some (filter (in_category "Clothes") [shirt; mug]).
Proof.
  cbv zeta. split; [reflexivity |].
  split; [reflexivity | vm_compute; discriminate].
Qed.

(** The worked example of the specification: with the list of the shirt and
    the mug and [q=mug], only the mug (id 2) is rendered. *)
Lemma product_list_search_witness :
  rendered_productos
    (snd (run scripted
              (product_list (SM := AsciiStr)
                 {| method := "GET"; GET_ := [("q", "mug")] |})
              [ok [shirt; mug]]))
  = Some [mug].
Proof.
  apply (product_list_search (SM := AsciiStr) scripted [ok [shirt; mug]]
           {| method := "GET"; GET_ := [("q", "mug")] |}
           {| status_code := 200; json := [shirt; mug] |} "mug");
    solve [reflexivity | discriminate].
Defined.

(** C2 as stated fails twice.  With [category=Clothes] and [q=mug] nothing is
    rendered, although the mug matches the query; and with [q= mug] (a
    leading blank) the mug is rendered, although the lower-cased query
    occurs in none of its fields. *)
Lemma product_list_search_counterexample :
  let claimed (q : string) :=
    Some (filter (matches_query (SM := AsciiStr)
                    (lower (StrMethods := AsciiStr) q))
                 [shirt; mug]) in
  let shown (request : HttpRequest) :=
    rendered_productos
      (snd (run scripted (product_list (SM := AsciiStr) request)
                [ok [shirt; mug]])) in
  (shown {| method := "GET"; GET_ := [("category", "Clothes"); ("q", "mug")] |}
   = Some []
   /\ claimed "mug" = Some [mug])
  /\ (shown {| method := "GET"; GET_ := [("q", " mug")] |} = Some [mug]
      /\ claimed " mug" = Some []).
Proof.
  cbv zeta. repeat split; reflexivity.
Qed.

Lemma product_list_upstream_failure_witness :
  run scripted
      (product_list (SM := AsciiStr) {| method := "GET"; GET_ := [] |})
      [TimedOut]
  = ([], [products_call],
     Returned
       (render "products/product_list.html"
          {| productos := []; categorias := ["All"]; selected := "All" |})).
Proof.
  apply (product_list_upstream_failure (SM := AsciiStr) scripted [TimedOut]
           {| method := "GET"; GET_ := [] |}).
  reflexivity.
Defined.

(** C3 as stated fails: status 300 is not a 2xx status, yet
    [raise_for_status] lets it pass and the body of the answer is rendered. *)
Lemma product_list_upstream_failure_counterexample :
  let r := Answered {| status_code := 300; json := [shirt; mug] |} in
  timeout_or_non_2xx r = true
  /\ run scripted
         (product_list (SM := AsciiStr) {| method := "GET"; GET_ := [] |}) [r]
     = ([], [products_call],
        Returned
          (render "products/product_list.html"
             {| productos := [shirt; mug];
                categorias := ["All"; "Clothes"; "Home"];
                selected := "All" |})).
Proof.
  cbv zeta. split; reflexivity.
Qed.

(** What [product_delete] does, whatever the method and the reply. *)
Lemma run_product_delete {W : Type}
      (serve : W -> http_call -> W * reply (list Product)) (w : W)
      (request : HttpRequest) (product_id : Z) :
  run serve (product_delete request product_id) w
  = if (method request =? "POST")%string
    then (fst (serve w (delete_call product_id)), [delete_call product_id],
          Returned (redirect "products:product_list"))
    else (w, [], Returned (redirect "products:product_list")).
Proof.
  unfold product_delete, requests_delete, Http.request.
  destruct (method request =? "POST")%string; [| reflexivity].
  cbn [bind try_except run]. fold (delete_call product_id).
  destruct (serve w (delete_call product_id)) as [w' r].
  destruct r as [| | resp]; cbn; try reflexivity.
  unfold raise_for_status.
  destruct ((400 <=? status_code resp) && (status_code resp <? 600));
    reflexivity.
Qed.

(** C4.  When the remote DELETE of [product_delete] fails (timeout or
    non-2xx status), the view raises nothing and redirects to the product
    list, which is the response it gives under any server and reply. *)
Theorem product_delete_failure_swallowed {W : Type}
        (serve : W -> http_call -> W * reply (list Product)) (w : W)
        (request : HttpRequest) (product_id : Z) :
  method request = "POST" ->
  timeout_or_non_2xx (snd (serve w (delete_call product_id))) = true ->
  run serve (product_delete request product_id) w
  = (fst (serve w (delete_call product_id)), [delete_call product_id],
     Returned (redirect "products:product_list"))
  /\ forall (W' : Type) (serve' : W' -> http_call -> W' * reply _) (w' : W'),
       snd (run serve' (product_delete request product_id) w')
       = Returned (redirect "products:product_list").
Proof.
  intros Hm _. split.
  - rewrite run_product_delete, Hm. reflexivity.
  - intros W' serve' w'. rewrite run_product_delete, Hm. reflexivity.
Qed.

Lemma product_delete_failure_swallowed_witness :
  run scripted (product_delete {| method := "POST"; GET_ := [] |} 7)
      [Answered {| status_code := 500; json := [] |}]
  = ([], [delete_call 7], Returned (redirect "products:product_list")).
Proof.
  apply (product_delete_failure_swallowed scripted
           [Answered {| status_code := 500; json := [] |}]
           {| method := "POST"; GET_ := [] |} 7);
    reflexivity.
Defined.

(** C10.  For a request whose method is not POST, [product_delete] issues no
    upstream call, leaves the upstream server as it was and redirects to the
    product list; so a DELETE is issued only for POST. *)
Theorem product_delete_only_on_post {W : Type}
        (serve : W -> http_call -> W * reply (list Product)) (w : W)
        (request : HttpRequest) (product_id : Z) :
  method request <> "POST" ->
  run serve (product_delete request product_id) w
  = (w, [], Returned (redirect "products:product_list")).
Proof.
  intros Hm. rewrite run_product_delete.
  apply String.eqb_neq in Hm. now rewrite Hm.
Qed.

Lemma product_delete_only_on_post_witness :
  run scripted (product_delete {| method := "GET"; GET_ := [] |} 7)
      [ok [shirt; mug]]
  = ([ok [shirt; mug]], [], Returned (redirect "products:product_list")).
Proof.
  apply (product_delete_only_on_post scripted [ok [shirt; mug]]
           {| method := "GET"; GET_ := [] |} 7).
  discriminate.
Defined.

End ProductsProofs.

(* ================================================================== *)
(** * Properties of accounts/views.py *)
(* ================================================================== *)

Module AccountsProofs.
Import Py Db Accounts AccountsSerializers.
Local Open Scope db_scope.

(** ** The token table under the monad *)

Lemma rows_of_app (uid : Z) (ts ts' : list Token) :
  rows_of uid (ts ++ ts') = (rows_of uid ts ++ rows_of uid ts')%list.
Proof. apply filter_app. Qed.

Lemma rows_of_filter (uid : Z) (f : Token -> bool) (ts : list Token) :
  (length (rows_of uid (filter f ts)) <= length (rows_of uid ts))%nat.
Proof.
  unfold rows_of. induction ts as [| t ts IH]; simpl; [lia |].
  destruct (f t); simpl; destruct (user_id t =? uid); simpl; lia.
Qed.

Section Preserves.
Variable P : db -> Prop.

Lemma preserves_ret {A : Type} (a : A) : preserves P (ret a).
Proof. now intros d Hd. Qed.

Lemma preserves_raise {A : Type} (e : exn) : preserves P (@raise_ A e).
Proof. now intros d Hd. Qed.

Lemma preserves_bind {A B : Type} (m : M A) (f : A -> M B) :
  preserves P m -> (forall a, preserves P (f a)) -> preserves P (bind m f).
Proof.
  intros Hm Hf d Hd. unfold bind.
  specialize (Hm d Hd).
  destruct (m d) as [d' [a | e]]; simpl in Hm.
  - now apply Hf.
  - exact Hm.
Qed.

Lemma preserves_try_except {A : Type} (body : M A) (class : exn -> bool)
      (handler : exn -> M A) :
  preserves P body -> (forall e, preserves P (handler e)) ->
  preserves P (try_except body class handler).
Proof.
  intros Hb Hh d Hd. unfold try_except.
  specialize (Hb d Hd).
  destruct (body d) as [d' [a | e]]; simpl in Hb; [exact Hb |].
  destruct (class e); [now apply Hh | exact Hb].
Qed.

Lemma preserves_User_objects_all : preserves P User_objects_all.
Proof. now intros d Hd. Qed.

Lemma preserves_User_objects_filter_exists (name : string) :
  preserves P (User_objects_filter_exists name).
Proof. now intros d Hd. Qed.

Lemma preserves_Token_objects_get (u : User) :
  preserves P (Token_objects_get u).
Proof.
  intros d Hd. unfold Token_objects_get.
  destruct (rows_of (pk u) (tokens d)) as [| t [| t' ts]]; exact Hd.
Qed.

Lemma preserves_login (request : HttpRequest) (u : User) :
  preserves P (login request u).
Proof. apply preserves_ret. Qed.

Lemma preserves_logout (request : HttpRequest) : preserves P (logout request).
Proof. apply preserves_ret. Qed.

Lemma preserves_api_view (names : list string)
      (permission : HttpRequest -> bool) (handler : view)
      (request : HttpRequest) :
  preserves P (handler request) ->
  preserves P (api_view names permission handler request).
Proof.
  intros Hh. unfold api_view.
  destruct (negb (permission request)); [apply preserves_ret |].
  destruct (method request =? "OPTIONS")%string; [apply preserves_ret |].
  destruct (existsb _ names); [exact Hh | apply preserves_ret].
Qed.

(** The views that write nothing. *)
Lemma preserves_user_profile_api {S : Serializers} (request : HttpRequest) :
  preserves P (user_profile_api request).
Proof.
  apply preserves_api_view.
  destruct (method request =? "GET")%string; [| apply preserves_raise].
  destruct (user request); [apply preserves_ret | apply preserves_raise].
Qed.

Lemma preserves_check_username_api (request : HttpRequest) :
  preserves P (check_username_api request).
Proof.
  apply preserves_api_view. cbv beta zeta.
  destruct (QueryDict_get (GET_ request) "username" "" =? "")%string;
    [apply preserves_ret |].
  apply preserves_bind; [apply preserves_User_objects_filter_exists |].
  intros b. apply preserves_ret.
Qed.

(** [register_api] and [login_api] preserve what the two writes they make
    preserve. *)
Lemma preserves_register_api {S : Serializers} (generated : string)
      (request : HttpRequest) :
  preserves P (on_users (UserRegistrationSerializer_save (data request))) ->
  (forall u, preserves P (Token_objects_get_or_create u generated)) ->
  preserves P (register_api generated request).
Proof.
  intros Hsave Htoken. apply preserves_api_view.
  destruct (method request =? "POST")%string; [| apply preserves_raise].
  apply preserves_bind; [apply preserves_User_objects_all |].
  intros rows. cbv beta zeta.
  destruct (is_valid _); [| apply preserves_ret].
  apply preserves_bind; [exact Hsave |]. intros u.
  apply preserves_bind; [apply Htoken |]. intros tc. apply preserves_ret.
Qed.

Lemma preserves_login_api {S : Serializers} (generated : string)
      (request : HttpRequest) :
  (forall u, preserves P (Token_objects_get_or_create u generated)) ->
  preserves P (login_api generated request).
Proof.
  intros Htoken. apply preserves_api_view.
  destruct (method request =? "POST")%string; [| apply preserves_raise].
  apply preserves_bind; [apply preserves_User_objects_all |].
  intros rows.
  destruct (UserLoginSerializer_validate rows (data request)) as [e | u];
    [apply preserves_ret |].
  apply preserves_bind; [apply preserves_login |]. intros _.
  apply preserves_bind; [apply Htoken |]. intros tc. apply preserves_ret.
Qed.

Lemma preserves_logout_api (request : HttpRequest) :
  (forall t, preserves P (Token_delete t)) ->
  preserves P (logout_api request).
Proof.
  intros Hdelete. apply preserves_api_view.
  destruct (method request =? "POST")%string; [| apply preserves_raise].
  apply preserves_try_except; [| intros e; apply preserves_ret].
  apply preserves_bind.
  - destruct (user request) as [u |]; [| apply preserves_raise].
    apply preserves_bind; [apply preserves_Token_objects_get |].
    exact Hdelete.
  - intros _. apply preserves_bind; [apply preserves_logout |].
    intros _. apply preserves_ret.
Qed.

End Preserves.

(** ** At most one token per user *)

Lemma one_token_on_users {A : Type} (m : Mu A) :
  preserves at_most_one_token (on_users m).
Proof.
  intros d Hd. unfold on_users.
  destruct (m (users d)) as [us o]. exact Hd.
Qed.

Lemma one_token_Token_delete (t : Token) :
  preserves at_most_one_token (Token_delete t).
Proof.
  intros d Hd uid. unfold Token_delete; simpl.
  etransitivity; [apply rows_of_filter | apply Hd].
Qed.

(** The one place where a row is added: only after the lookup found none. *)
Lemma one_token_get_or_create (u : User) (generated : string) :
  preserves at_most_one_token (Token_objects_get_or_create u generated).
Proof.
  intros d Hd.
  unfold Token_objects_get_or_create, try_except, bind, Token_objects_get.
  destruct (rows_of (pk u) (tokens d)) as [| t [| t' ts]] eqn:Hrows;
    simpl; try exact Hd.
  unfold Token_objects_create.
  destruct (existsb _ (tokens d) || negb (existsb _ (users d)));
    simpl; [exact Hd |].
  intros uid. simpl. rewrite rows_of_app, length_app.
  unfold rows_of at 2; simpl.
  destruct (Z.eqb_spec (pk u) uid) as [<- | ne]; simpl.
  - rewrite Hrows. simpl. lia.
  - specialize (Hd uid). lia.
Qed.

Section AnySerializers.
Context {S : Serializers}.

Lemma one_token_dispatch (o : op) : preserves at_most_one_token (dispatch o).
Proof.
  destruct o as [g r | g r | r | r | r]; simpl.
  - apply preserves_register_api;
      [apply one_token_on_users | intros u; apply one_token_get_or_create].
  - apply preserves_login_api. intros u. apply one_token_get_or_create.
  - apply preserves_logout_api. apply one_token_Token_delete.
  - apply preserves_user_profile_api.
  - apply preserves_check_username_api.
Qed.

(** C5.  In every state reached from the empty tables by any sequence of
    calls of the account API (register, login, logout, profile,
    check-username), whatever the calls end in, no user has more than one
    token. *)
Theorem one_token_per_user (d : db) :
  reachable d -> at_most_one_token d.
Proof.
  induction 1 as [| d o _ IH].
  - intros uid. simpl. lia.
  - unfold step. now apply one_token_dispatch.
Qed.

End AnySerializers.

Lemma one_token_per_user_witness :
  at_most_one_token
    (exec (S := TagSerializers) empty_db
          [Register "k1" (post ana_registration);
           Login "k2" (post ana_credentials);
           Logout {| method := "POST"; GET_ := []; data := [];
                     user := Some ana |};
           Login "k3" (post ana_credentials)]).
Proof.
  exact (one_token_per_user (S := TagSerializers) _
           (reachable_step _ (Login "k3" (post ana_credentials))
              (reachable_step _
                 (Logout {| method := "POST"; GET_ := []; data := [];
                            user := Some ana |})
                 (reachable_step _ (Login "k2" (post ana_credentials))
                    (reachable_step _ (Register "k1" (post ana_registration))
                       reachable_empty))))).
Defined.

(** ** [check_username_api] *)

(** C8.  For a GET request with a non-empty [username] parameter,
    [check_username_api] answers 200 with [available] false exactly when a
    user row carries that username, and leaves the tables as they were. *)
Theorem check_username_api_availability (d : db) (request : HttpRequest)
        (name : string) :
  method request = "GET" ->
  QueryDict_get (GET_ request) "username" "" = name ->
  name <> "" ->
  exists (available : bool) (message : string),
    check_username_api request d
    = (d, Returned {| response_data :=
                        [("success", Scalar (Bool true));
                         ("available", Scalar (Bool available));
                         ("message", Scalar (Str message))];
                      status := 200 |})
    /\ (available = false <-> exists u, In u (users d) /\ username u = name).
Proof.
  intros Hm Hn Hne.
  exists (negb (existsb (fun u => (username u =? name)%string) (users d))).
  eexists. split.
  - unfold check_username_api, api_view, AllowAny. rewrite Hm. cbn.
    rewrite Hn. apply String.eqb_neq in Hne. rewrite Hne. reflexivity.
  - rewrite negb_false_iff, existsb_exists.
    split; intros (u & Hin & Hu); exists u; split; trivial;
      now apply String.eqb_eq.
Qed.

Lemma check_username_api_availability_witness :
  exists (available : bool) (message : string),
    check_username_api (get [("username", "ana")])
                       {| users := [ana]; tokens := [] |}
    = ({| users := [ana]; tokens := [] |},
       Returned {| response_data :=
                     [("success", Scalar (Bool true));
                      ("available", Scalar (Bool available));
                      ("message", Scalar (Str message))];
                   status := 200 |})
    /\ (available = false <->
        exists u, In u [ana] /\ username u = "ana").
Proof.
  apply (check_username_api_availability
           {| users := [ana]; tokens := [] |}
           (get [("username", "ana")]) "ana");
    solve [reflexivity | discriminate].
Defined.

(** C9.  For a GET request whose [username] parameter is absent or empty,
    [check_username_api] answers 400 with [success] false and no
    [available] field, and leaves the tables as they were. *)
Theorem check_username_api_missing (d : db) (request : HttpRequest) :
  method request = "GET" ->
  QueryDict_get (GET_ request) "username" "" = "" ->
  exists payload : dict,
    check_username_api request d
    = (d, Returned {| response_data := payload; status := 400 |})
    /\ dict_get payload "success" = Some (Scalar (Bool false))
    /\ dict_get payload "available" = None.
Proof.
  intros Hm Hn. eexists. split.
  - unfold check_username_api, api_view, AllowAny. rewrite Hm. cbn.
    rewrite Hn. reflexivity.
  - split; reflexivity.
Qed.

Lemma check_username_api_missing_witness :
  exists payload : dict,
    check_username_api (get []) empty_db
    = (empty_db, Returned {| response_data := payload; status := 400 |})
    /\ dict_get payload "success" = Some (Scalar (Bool false))
    /\ dict_get payload "available" = None.
Proof.
  apply (check_username_api_missing empty_db (get [])); reflexivity.
Defined.

(** ** [register_api] and [login_api] over the serializers of the
    specification *)

Section SpecModel.
Context {H : Hashers}.
#[local] Existing Instance SpecSerializers.

Lemma bad_password_rejected (rows : list User) (d : QueryDict) :
  (String.length (field d "password") < 8)%nat
  \/ field d "password" <> field d "password2" ->
  exists codes, In ("password", codes) (registration_errors rows d).
Proof.
  intros Hbad. unfold registration_errors.
  assert (E : exists codes,
             (if (field d "password" =? "")%string
              then [("password", ["required"])]
              else if (String.length (field d "password") <? 8)%nat
                   then [("password", ["min_length"])]
                   else if negb (field d "password"
                                 =? field d "password2")%string
                        then [("password", ["password_mismatch"])]
                        else []) = [("password", codes)]).
  { destruct (field d "password" =? "")%string; [now eexists |].
    destruct (Nat.ltb_spec (String.length (field d "password")) 8);
      [now eexists |].
    destruct (String.eqb_spec (field d "password") (field d "password2"));
      [| now eexists].
    destruct Hbad; [lia | contradiction]. }
  destruct E as [codes E]. exists codes. rewrite E.
  rewrite !in_app_iff. right; right; left. now left.
Qed.

(** C7.  A registration request whose password has fewer than 8 characters,
    or differs from its confirmation, is answered 400 with errors keyed by
    field, among them the field [password]; the user and token tables are
    left as they were. *)
Theorem register_api_rejects_bad_password (d : db) (generated : string)
        (request : HttpRequest) :
  method request = "POST" ->
  (String.length (field (data request) "password") < 8)%nat
  \/ field (data request) "password" <> field (data request) "password2" ->
  exists errors : Errors,
    register_api generated request d
    = (d, Returned {| response_data :=
                        [("success", Scalar (Bool false));
                         ("message", Scalar (Str "Error en el registro"));
                         ("errors", ErrorDict errors)];
                      status := 400 |})
    /\ exists codes, In ("password", codes) errors.
Proof.
  intros Hm Hbad.
  exists (registration_errors (users d) (data request)).
  destruct (bad_password_rejected (users d) (data request) Hbad)
    as [codes Hin].
  split; [| now exists codes].
  unfold register_api, api_view, AllowAny. rewrite Hm. cbn.
  unfold bind, User_objects_all. cbn.
  destruct (registration_errors (users d) (data request)); [destruct Hin |].
  reflexivity.
Qed.

(** ** The token of a registered user, up to the next logout *)

Lemma find_app_Some {A : Type} (p : A -> bool) (l l' : list A) (x : A) :
  find p l = Some x -> find p (l ++ l') = Some x.
Proof.
  induction l as [| a l IH]; simpl; [discriminate |].
  destruct (p a); auto.
Qed.

Lemma find_app_None {A : Type} (p : A -> bool) (l l' : list A) :
  existsb p l = false -> find p (l ++ l') = find p l'.
Proof.
  induction l as [| a l IH]; simpl; [trivial |].
  destruct (p a); [discriminate | exact IH].
Qed.

Lemma tracked_get_or_create (name : string) (u : User) (tk : Token)
      (v : User) (generated : string) :
  preserves (tracked name u tk) (Token_objects_get_or_create v generated).
Proof.
  intros d [Hf Hr].
  unfold Token_objects_get_or_create, try_except, bind, Token_objects_get.
  destruct (rows_of (pk v) (tokens d)) as [| t [| t' ts]] eqn:Hrows;
    simpl; try (split; assumption).
  unfold Token_objects_create.
  destruct (existsb _ (tokens d) || negb (existsb _ (users d)));
    simpl; [split; assumption |].
  split; [exact Hf |]. simpl.
  rewrite rows_of_app, Hr. unfold rows_of at 1; simpl.
  destruct (Z.eqb_spec (pk v) (pk u)) as [E | ne]; [| reflexivity].
  rewrite E, Hr in Hrows. discriminate.
Qed.

Lemma tracked_registration_save (name : string) (u : User) (tk : Token)
      (d : QueryDict) :
  preserves (tracked name u tk) (on_users (registration_save d)).
Proof.
  intros s [Hf Hr]. unfold on_users, registration_save.
  destruct (existsb _ (users s)); simpl; split; trivial.
  now apply find_app_Some.
Qed.

Lemma tracked_dispatch (name : string) (u : User) (tk : Token) (o : op) :
  is_logout o = false -> preserves (tracked name u tk) (dispatch o).
Proof.
  destruct o as [g r | g r | r | r | r]; simpl; intros Hl;
    try discriminate.
  - apply preserves_register_api;
      [apply tracked_registration_save
      | intros v; apply tracked_get_or_create].
  - apply preserves_login_api. intros v. apply tracked_get_or_create.
  - apply preserves_user_profile_api.
  - apply preserves_check_username_api.
Qed.

Lemma tracked_exec (name : string) (u : User) (tk : Token) (ops : list op) :
  forallb (fun o => negb (is_logout o)) ops = true ->
  forall d, tracked name u tk d -> tracked name u tk (exec d ops).
Proof.
  induction ops as [| o ops IH]; simpl; intros Hops d Hd; [exact Hd |].
  apply andb_true_iff in Hops as [Ho Hops].
  apply IH; [exact Hops |].
  apply tracked_dispatch; [now apply negb_true_iff | exact Hd].
Qed.

(** A token returned by [get_or_create] is the one row of its user. *)
Lemma get_or_create_returned (u : User) (generated : string) (d d' : db)
      (tk : Token) (created : bool) :
  Token_objects_get_or_create u generated d = (d', Returned (tk, created)) ->
  users d' = users d /\ rows_of (pk u) (tokens d') = [tk].
Proof.
  unfold Token_objects_get_or_create, try_except, bind, Token_objects_get.
  destruct (rows_of (pk u) (tokens d)) as [| t [| t' ts]] eqn:Hrows; simpl.
  - unfold Token_objects_create.
    destruct (existsb _ (tokens d) || negb (existsb _ (users d)));
      simpl; [discriminate |].
    intros E; inversion E; subst; clear E. simpl. split; [reflexivity |].
    rewrite rows_of_app, Hrows. unfold rows_of; simpl.
    now rewrite Z.eqb_refl.
  - intros E; inversion E; subst. now split.
  - discriminate.
Qed.

(** What a 201 answer of [register_api] tells. *)
Lemma register_api_created (d0 d1 : db) (generated : string)
      (request : HttpRequest) (resp : Response) :
  register_api generated request d0 = (d1, Returned resp) ->
  status resp = 201 ->
  exists u tk,
    tracked (field (data request) "username") u tk d1
    /\ response_data resp
       = [("success", Scalar (Bool true));
          ("message", Scalar (Str "Usuario registrado satisfactoriamente"));
          ("user", Object (user_data u));
          ("token", Scalar (Str (key tk)))]
    /\ password u = make_password (field (data request) "password")
    /\ field (data request) "username" <> ""
    /\ field (data request) "password" <> "".
Proof.
  unfold register_api, api_view, AllowAny. cbn [negb].
  destruct (method request =? "OPTIONS")%string;
    [intros E; inversion E; subst; discriminate |].
  destruct (existsb _ ["POST"]);
    [| intros E; inversion E; subst; discriminate].
  destruct (method request =? "POST")%string; [| discriminate].
  unfold bind at 1, User_objects_all. cbn [fst snd].
  change (UserRegistrationSerializer_errors (users d0) (data request))
    with (registration_errors (users d0) (data request)).
  destruct (registration_errors (users d0) (data request)) eqn:Herr;
    cbn [is_valid]; [| intros E; inversion E; subst; discriminate].
  unfold registration_errors in Herr.
  apply app_eq_nil in Herr as [Huser Herr].
  apply app_eq_nil in Herr as [_ Herr].
  apply app_eq_nil in Herr as [Hpass _].
  destruct (String.eqb_spec (field (data request) "username") "")
    as [| Hname]; [discriminate |].
  destruct (existsb _ (users d0)) eqn:Hfresh; [discriminate |].
  destruct (String.eqb_spec (field (data request) "password") "")
    as [| Hraw]; [discriminate |].
  clear Huser Hpass.
  unfold bind at 1, on_users.
  change (UserRegistrationSerializer_save (data request))
    with (registration_save (data request)).
  unfold registration_save. rewrite Hfresh. cbn [fst snd users tokens].
  set (u := {| pk := next_pk (users d0);
               username := field (data request) "username" |}).
  unfold bind.
  destruct (Token_objects_get_or_create u generated _)
    as [d' [[tk created] | e]] eqn:Htoken; [| discriminate].
  intros E _; inversion E; subst; clear E.
  apply get_or_create_returned in Htoken as [Husers Hrows].
  exists u, tk. repeat split; trivial.
  rewrite Husers. simpl users.
  rewrite find_app_None by exact Hfresh.
  simpl. now rewrite String.eqb_refl.
Qed.

(** C6.  After [register_api] has answered 201 for a user, and after any
    further calls of the account API none of which is a logout, [login_api]
    with the username and password of that registration answers 200 with
    the token and the user that the registration returned, and writes
    nothing.  The hasher accepts a password against its own hash. *)
Theorem login_api_returns_registration_token
        (d0 d1 : db) (generated : string) (request : HttpRequest)
        (resp : Response) (ops : list op)
        (generated' : string) (request' : HttpRequest) :
  (forall raw, check_password raw (make_password raw) = true) ->
  register_api generated request d0 = (d1, Returned resp) ->
  status resp = 201 ->
  forallb (fun o => negb (is_logout o)) ops = true ->
  method request' = "POST" ->
  field (data request') "username" = field (data request) "username" ->
  field (data request') "password" = field (data request) "password" ->
  exists (resp' : Response) (t : string),
    login_api generated' request' (exec d1 ops)
    = (exec d1 ops, Returned resp')
    /\ status resp' = 200
    /\ dict_get (response_data resp) "token" = Some (Scalar (Str t))
    /\ dict_get (response_data resp') "token" = Some (Scalar (Str t))
    /\ dict_get (response_data resp') "user"
       = dict_get (response_data resp) "user".
Proof.
  intros Hhash Hreg Hstatus Hops Hm Hname Hraw.
  destruct (register_api_created _ _ _ _ _ Hreg Hstatus)
    as (u & tk & Htracked & Hdata & Hpw & Hname_ne & Hraw_ne).
  apply (tracked_exec _ _ _ ops Hops) in Htracked.
  destruct Htracked as [Hfind Hrows].
  set (d2 := exec d1 ops) in *.
  eexists. exists (key tk). split.
  - unfold login_api, api_view, AllowAny. rewrite Hm. cbn.
    unfold bind at 1, User_objects_all. cbn [fst snd].
    change (UserLoginSerializer_validate (users d2) (data request'))
      with (login_validate (users d2) (data request')).
    unfold login_validate, required, authenticate.
    rewrite Hname, Hraw.
    apply String.eqb_neq in Hname_ne, Hraw_ne. rewrite Hname_ne, Hraw_ne.
    cbn [app]. rewrite Hfind, Hpw, Hhash.
    unfold bind, login, ret, Token_objects_get_or_create, try_except, bind,
      Token_objects_get.
    rewrite Hrows. reflexivity.
  - rewrite Hdata. cbn. repeat split; reflexivity.
Qed.

End SpecModel.

Lemma register_api_rejects_bad_password_witness :
  exists errors : Errors,
    register_api (S := TagSerializers) "k1"
      (post [("username", "ana"); ("email", "ana@example.org");
             ("password", "short"); ("password2", "short")])
      empty_db
    = (empty_db,
       Returned {| response_data :=
                     [("success", Scalar (Bool false));
                      ("message", Scalar (Str "Error en el registro"));
                      ("errors", ErrorDict errors)];
                   status := 400 |})
    /\ exists codes, In ("password", codes) errors.
Proof.
  apply (register_api_rejects_bad_password (H := TagHashers) empty_db "k1"
           (post [("username", "ana"); ("email", "ana@example.org");
                  ("password", "short"); ("password2", "short")])).
  - reflexivity.
  - left. vm_compute. lia.
Defined.

Lemma login_api_returns_registration_token_witness :
  let d1 := {| users := [ana]; tokens := [{| key := "k1"; user_id := 1 |}] |} in
  let resp :=
    {| response_data :=
         [("success", Scalar (Bool true));
          ("message", Scalar (Str "Usuario registrado satisfactoriamente"));
          ("user", Object (user_data ana));
          ("token", Scalar (Str "k1"))];
       status := 201 |} in
  let ops := [Login "k2" (post ana_credentials);
              CheckUsername (get [("username", "ana")])] in
  register_api (S := TagSerializers) "k1" (post ana_registration) empty_db
  = (d1, Returned resp)
  /\ exists (resp' : Response) (t : string),
       login_api (S := TagSerializers) "k3" (post ana_credentials)
                 (exec (S := TagSerializers) d1 ops)
       = (exec (S := TagSerializers) d1 ops, Returned resp')
       /\ status resp' = 200
       /\ dict_get (response_data resp) "token" = Some (Scalar (Str t))
       /\ dict_get (response_data resp') "token" = Some (Scalar (Str t))
       /\ dict_get (response_data resp') "user"
          = dict_get (response_data resp) "user".
Proof.
  intros d1 resp ops. split; [reflexivity |].
  apply (login_api_returns_registration_token (H := TagHashers)
           empty_db d1 "k1" (post ana_registration) resp ops
           "k3" (post ana_credentials)).
  - intros raw. apply String.eqb_refl.
  - reflexivity.
  - reflexivity.
  - reflexivity.
  - reflexivity.
  - reflexivity.
  - reflexivity.
Defined.

End AccountsProofs.

(* ================================================================== *)
(** * Further properties of [product_list] *)
(* ================================================================== *)

Module ProductListProofs.
Import Py Http Products ProductsFirst.

Lemma run_product_list_first {W : Type}
      (serve : W -> http_call -> W * reply (list Product))
      (w : W) (request : HttpRequest) :
  run serve (product_list_first request) w =
  (fst (serve w products_call), [products_call],
   Returned
     (render "products/product_list.html"
        {| productos :=
             (let selected := QueryDict_get (GET_ request) "category" "All" in
              if negb (selected =? "All")%string
              then filter (in_category selected)
                          (received (snd (serve w products_call)))
              else received (snd (serve w products_call)));
           categorias :=
             "All" :: sorted_set
                        (map (fun p => name (category p))
                             (received (snd (serve w products_call))));
           selected := QueryDict_get (GET_ request) "category" "All" |})).
Proof.
  unfold product_list_first, requests_get, Http.request.
  cbn [bind try_except run].
  fold products_call.
  destruct (serve w products_call) as [w' r].
  destruct r as [| | resp]; cbn; try reflexivity.
  unfold raise_for_status.
  destruct ((400 <=? status_code resp) && (status_code resp <? 600));
    reflexivity.
Qed.

Section WithStrMethods.
Context {SM : StrMethods}.

(** X1.  For a request whose search query is absent or blank, the
    [product_list] in force does what the first definition of the module
    does: same call, same server state, same response. *)
Theorem product_list_extends_first {W : Type}
        (serve : W -> http_call -> W * reply (list Product)) (w : W)
        (request : HttpRequest) :
  lower (strip (QueryDict_get (GET_ request) "q" "")) = "" ->
  run serve (product_list request) w
  = run serve (product_list_first request) w.
Proof.
  intros Hq.
  rewrite ProductsProofs.run_product_list, run_product_list_first.
  unfold filtered. rewrite Hq. reflexivity.
Qed.

End WithStrMethods.

Lemma product_list_extends_first_witness :
  run scripted
      (product_list (SM := AsciiStr)
         {| method := "GET"; GET_ := [("category", "Home"); ("q", "  ")] |})
      [ok [shirt; mug]]
  = run scripted
        (product_list_first
           {| method := "GET"; GET_ := [("category", "Home"); ("q", "  ")] |})
        [ok [shirt; mug]].
Proof.
  apply (product_list_extends_first (SM := AsciiStr) scripted
           [ok [shirt; mug]]
           {| method := "GET"; GET_ := [("category", "Home"); ("q", "  ")] |}).
  reflexivity.
Defined.

Section WithStrMethodsAgain.
Context {SM : StrMethods}.

(** X2.  Whatever the request and the reply, the products rendered by
    [product_list] are a selection of the products of the reply, in the
    order of the reply: nothing is added, repeated or moved.  After a
    failed request the selection is empty. *)
Theorem product_list_renders_selection {W : Type}
        (serve : W -> http_call -> W * reply (list Product)) (w : W)
        (request : HttpRequest) :
  exists keep : Product -> bool,
    rendered_productos (snd (run serve (product_list request) w))
    = Some (filter keep (received (snd (serve w products_call)))).
Proof.
  rewrite ProductsProofs.run_product_list.
  cbn [snd rendered_productos productos]. unfold filtered.
  set (l := received _).
  set (selected := QueryDict_get (GET_ request) "category" "All").
  set (query := lower _).
  destruct (negb (selected =? "All")%string), (negb (query =? "")%string).
  - exists (fun p => in_category selected p && matches_query query p).
    f_equal. induction l as [| p l IH]; simpl; [reflexivity |].
    destruct (in_category selected p); simpl; [| exact IH].
    destruct (matches_query query p); now rewrite IH.
  - now exists (in_category selected).
  - now exists (matches_query query).
  - exists (fun _ => true). f_equal.
    induction l as [| p l IH]; simpl; now rewrite <- ?IH.
Qed.

End WithStrMethodsAgain.

(** ** The category menu *)

Lemma compare_Gt_Lt (x y : string) :
  String.compare x y = Gt -> String.compare y x = Lt.
Proof. intros H. rewrite String.compare_antisym, H. reflexivity. Qed.

Lemma compare_Lt_trans (x y z : string) :
  String.compare x y = Lt -> String.compare y z = Lt ->
  String.compare x z = Lt.
Proof.
  intros Hxy Hyz. apply String_as_OT.cmp_lt.
  apply String_as_OT.lt_trans with y; now apply String_as_OT.cmp_lt.
Qed.

Lemma insert_sorted_In (x y : string) (l : list string) :
  In y (insert_sorted x l) <-> y = x \/ In y l.
Proof.
  induction l as [| z l IH]; simpl; [intuition |].
  destruct (String.compare x z) eqn:Hc; simpl.
  - apply String.compare_eq_iff in Hc. subst. intuition.
  - intuition.
  - rewrite IH. intuition.
Qed.

Lemma sorted_set_In (y : string) (l : list string) :
  In y (sorted_set l) <-> In y l.
Proof.
  unfold sorted_set. induction l as [| x l IH]; simpl; [tauto |].
  rewrite insert_sorted_In, IH. intuition.
Qed.

Lemma insert_sorted_ascending (x : string) (l : list string) :
  ascending l -> ascending (insert_sorted x l).
Proof.
  unfold ascending. induction l as [| z l IH]; simpl; intros Hl.
  - repeat constructor.
  - inversion Hl as [| ? ? Hl' Hz]; subst.
    destruct (String.compare x z) eqn:Hc.
    + exact Hl.
    + constructor; [exact Hl |].
      constructor; [exact Hc |].
      eapply Forall_impl; [| exact Hz].
      intros a Ha. now apply compare_Lt_trans with z.
    + constructor; [now apply IH |].
      apply Forall_forall. intros a Ha.
      apply insert_sorted_In in Ha as [-> | Ha].
      * now apply compare_Gt_Lt.
      * rewrite Forall_forall in Hz. now apply Hz.
Qed.

Lemma sorted_set_ascending (l : list string) : ascending (sorted_set l).
Proof.
  unfold sorted_set. induction l as [| x l IH]; simpl.
  - constructor.
  - now apply insert_sorted_ascending.
Qed.

(** X3.  The category menu built by [product_list] is 'All' followed by
    the category names of the products of the reply, each once, in strictly
    ascending order; it does not depend on the filters of the request. *)
Theorem product_list_category_menu {SM : StrMethods} {W : Type}
        (serve : W -> http_call -> W * reply (list Product)) (w : W)
        (request : HttpRequest) :
  exists names : list string,
    rendered_categorias (snd (run serve (product_list request) w))
    = Some ("All" :: names)
    /\ ascending names
    /\ forall c, In c names <->
                 exists p, In p (received (snd (serve w products_call)))
                           /\ name (category p) = c.
Proof.
  rewrite ProductsProofs.run_product_list.
  cbn [snd rendered_categorias categorias].
  eexists. split; [reflexivity |]. split.
  - apply sorted_set_ascending.
  - intros c. rewrite sorted_set_In, in_map_iff.
    split; intros (p & H1 & H2); exists p; tauto.
Qed.

End ProductListProofs.

(* ================================================================== *)
(** * Properties of the form views of products/views.py *)
(* ================================================================== *)

Module CatalogProofs.
Import Py Catalog CatalogViews CatalogVocabulary.
Local Open Scope catalog_scope.

Example toy_create :
  run (canned (answered 200 two_categories) Http.TimedOut (answered 201 tt))
      (product_create (F := ToyFramework) (SM := AsciiStr)
         {| method := "POST"; POST_ := mug_form |}) tt
  = (tt,
     [wire_of (GetCategories 10); wire_of (PostProduct mug_payload 10)],
     Done (redirect "products:product_list")).
Proof. reflexivity. Qed.

Section WithFramework.
Context {F : Framework} {SM : StrMethods}.

(** ** What a valid form holds *)

Lemma choices_init (data : option QueryDict) (initial : option Initial)
      (categories : list (Z * string)) :
  choices (ProductForm_init data initial categories) = categories.
Proof. now destruct categories. Qed.

Lemma CharField_clean_inr (max_length : option nat) (value : option string)
      (v : string) :
  CharField_clean max_length value = inr v ->
  v <> ""
  /\ match max_length with
     | Some n => (String.length v <= n)%nat
     | None => True
     end.
Proof.
  unfold CharField_clean.
  set (x := match value with None => "" | Some v0 => strip v0 end).
  destruct (String.eqb_spec x "") as [| Hne]; [discriminate |].
  destruct max_length as [n |].
  - destruct (Nat.ltb_spec n (String.length x)); cbn [app];
      [discriminate |].
    destruct (contains _ x); [discriminate |].
    intros E; inversion E; subst. now split.
  - cbn [app]. destruct (contains _ x); [discriminate |].
    intros E; inversion E; subst. now split.
Qed.

Lemma ChoiceField_clean_inr (cs : list (Z * string)) (value : option string)
      (v : string) :
  ChoiceField_clean cs value = inr v ->
  exists k label, In (k, label) cs /\ v = str k.
Proof.
  unfold ChoiceField_clean.
  set (x := match value with None => "" | Some v0 => v0 end).
  destruct (x =? "")%string; [discriminate |].
  destruct (valid_value cs x) eqn:Hv; [| discriminate].
  intros E; inversion E; subst.
  unfold valid_value in Hv.
  apply existsb_exists in Hv as ([k label] & Hin & Heq).
  apply String.eqb_eq in Heq. now exists k, label.
Qed.

Lemma validated_cleaned (request : HttpRequest)
      (categories : list (Z * string)) (form : ProductForm)
      (cleaned : Cleaned) :
  validated request categories = (form, Some cleaned) ->
  c_title cleaned <> ""
  /\ (String.length (c_title cleaned) <= 255)%nat
  /\ c_description cleaned <> ""
  /\ (exists k label, In (k, label) categories /\ c_category cleaned = str k)
  /\ form_errors form = []
  /\ form_data form = Some (POST_ request).
Proof.
  unfold validated, is_valid. cbn [form_data ProductForm_init].
  rewrite choices_init. unfold full_clean.
  destruct (CharField_clean (Some 255%nat) _) as [e1 | title] eqn:H1;
    [now destruct (DecimalField_clean _ _ _) |].
  destruct (DecimalField_clean 10 2 _) as [e2 | price]; [discriminate |].
  destruct (CharField_clean None _) as [e3 | description] eqn:H3;
    [discriminate |].
  destruct (ChoiceField_clean categories _) as [e4 | category] eqn:H4;
    [discriminate |].
  destruct (URLField_clean _) as [e5 | image]; [discriminate |].
  intros E; inversion E; subst; clear E. cbn.
  apply CharField_clean_inr in H1 as [? ?], H3 as [? _].
  apply ChoiceField_clean_inr in H4.
  repeat split; trivial.
Qed.

(** Without choices no form is valid, and the category field says so. *)
Lemma validated_without_choices (request : HttpRequest) :
  snd (validated request []) = None
  /\ exists codes,
       In ("category", codes) (form_errors (fst (validated request []))).
Proof.
  unfold validated, is_valid. cbn [form_data ProductForm_init choices].
  unfold full_clean.
  assert (Hc : exists codes,
             ChoiceField_clean [] (QueryDict_find (POST_ request) "category")
             = inl codes).
  { unfold ChoiceField_clean.
    destruct (_ =? "")%string; [now eexists |]. now eexists. }
  destruct Hc as [codes Hc]. rewrite Hc. split.
  - destruct (CharField_clean (Some 255%nat) _),
      (DecimalField_clean 10 2 _), (CharField_clean None _); reflexivity.
  - exists codes. cbn [fst form_errors].
    rewrite !in_app_iff. right; right; right; left. now left.
Qed.

Variable W : Type.
Variable serve : forall R : Type, W -> call R -> W * Http.reply R.

(** ** One guarded call *)

Lemma run_guarded {R A : Type} (c : call R) (a : Http.Response R -> A)
      (b : A) (w : W) :
  run serve
      (try_except (resp <- requests_send c ;;
                   raise_for_status resp ;;;
                   Ret (a resp))
                  is_RequestException (Ret b)) w
  = (fst (serve R w c), [wire_of c],
     Done match snd (serve R w c) with
          | Http.Answered resp =>
              if refused (Http.Answered resp) then b else a resp
          | _ => b
          end).
Proof.
  unfold requests_send. cbn [bind try_except run].
  destruct (serve R w c) as [w1 r].
  destruct r as [| | resp]; cbn; try reflexivity.
  unfold raise_for_status.
  destruct ((400 <=? Http.status_code resp)
            && (Http.status_code resp <? 600)); reflexivity.
Qed.

Lemma run_bind {A B : Type} (m : prog A) (f : A -> prog B) (w : W) :
  run serve (bind m f) w
  = match run serve m w with
    | (w1, calls, Done a) =>
        let '(w2, calls', o) := run serve (f a) w1 in
        (w2, (calls ++ calls')%list, o)
    | (w1, calls, Failed e) => (w1, calls, Failed e)
    end.
Proof.
  revert w. induction m as [a | e | R c k IH]; intros w; cbn.
  - now destruct (run serve (f a) w) as [[w2 calls'] o].
  - reflexivity.
  - destruct (serve R w c) as [w1 r]. rewrite IH.
    destruct (run serve (k r) w1) as [[w2 calls] [a | e]]; [| reflexivity].
    now destruct (run serve (f a) w2) as [[w3 calls'] o].
Qed.

Lemma run_fetch_categories (timeout : Z) (w : W) :
  run serve (fetch_categories timeout) w
  = (fst (serve _ w (GetCategories timeout)),
     [wire_of (GetCategories timeout)],
     Done (choices_of (snd (serve _ w (GetCategories timeout))))).
Proof.
  unfold fetch_categories.
  rewrite (run_guarded (GetCategories timeout)
             (fun resp => map (fun c => (cat_id c, cat_name c))
                              (Http.json resp)) []).
  unfold choices_of.
  destruct (snd (serve _ w (GetCategories timeout))) as [| | resp];
    reflexivity.
Qed.

(** ** [product_create], case by case *)

Lemma run_product_create (request : HttpRequest) (w : W) :
  let gc := GetCategories 10 in
  let w1 := fst (serve _ w gc) in
  let categories := choices_of (snd (serve _ w gc)) in
  run serve (product_create request) w
  = if (method request =? "POST")%string then
      match validated request categories with
      | (form, Some cleaned) =>
          match int (c_category cleaned) with
          | Some k =>
              let post := PostProduct (payload_of cleaned k) 10 in
              (fst (serve _ w1 post), [wire_of gc; wire_of post],
               Done (if refused (snd (serve _ w1 post))
                     then render "products/product_create.html"
                            (Some (add_error form
                                     "Error al crear el producto en la API"))
                            None
                     else redirect "products:product_list"))
          | None => (w1, [wire_of gc], Failed ValueError)
          end
      | (form, None) =>
          (w1, [wire_of gc],
           Done (render "products/product_create.html" (Some form) None))
      end
    else
      (w1, [wire_of gc],
       Done (render "products/product_create.html"
               (Some (ProductForm_init None None categories)) None)).
Proof.
  cbv zeta. unfold product_create.
  rewrite run_bind, run_fetch_categories.
  destruct (method request =? "POST")%string; [| reflexivity].
  unfold validated.
  destruct (is_valid _) as [form [cleaned |]]; [| reflexivity].
  rewrite run_bind. unfold build_payload, payload_of.
  destruct (int (c_category cleaned)) as [k |]; [| reflexivity].
  cbn [run].
  rewrite (run_guarded _ (fun _ => redirect "products:product_list")).
  cbn [app]. do 2 f_equal.
  now destruct (snd (serve unit _ _)) as [| | resp].
Qed.

(** X4.  Whatever the request and the server, [product_create] asks for
    the categories and then writes at most once; and when it writes, the
    request was a POST and the JSON sent carries a category id that is among
    the categories just fetched, a title that is not empty and has at most
    255 characters, a description that is not empty, and exactly one image.
    [int] is taken to read back what [str] prints. *)
Theorem product_create_posts_validated_data (request : HttpRequest) (w : W) :
  (forall k, int (str k) = Some k) ->
  let gc := GetCategories 10 in
  let calls := snd (fst (run serve (product_create request) w)) in
  calls = [wire_of gc]
  \/ exists payload,
       calls = [wire_of gc; wire_of (PostProduct payload 10)]
       /\ method request = "POST"
       /\ In (p_categoryId payload)
             (map fst (choices_of (snd (serve _ w gc))))
       /\ p_title payload <> ""
       /\ (String.length (p_title payload) <= 255)%nat
       /\ p_description payload <> ""
       /\ length (p_images payload) = 1%nat.
Proof.
  intros Hint. cbv zeta. rewrite run_product_create. cbv zeta.
  destruct (String.eqb_spec (method request) "POST") as [Hm |];
    [| now left].
  destruct (validated request _) as [form [cleaned |]] eqn:Hv; [| now left].
  apply validated_cleaned in Hv
    as (Ht & Hlen & Hd & (k & label & Hin & Hk) & _ & _).
  rewrite Hk, Hint. right. exists (payload_of cleaned k).
  repeat split; trivial.
  apply in_map_iff. now exists (k, label).
Qed.

(** X5.  [product_create] raises nothing, whatever the request and the
    server: lost requests and refused writes end in a rendered form, and
    [int] cannot fail on a category that the choice field accepted.  [int]
    is taken to read back what [str] prints. *)
Theorem product_create_never_raises (request : HttpRequest) (w : W) :
  (forall k, int (str k) = Some k) ->
  exists response,
    snd (run serve (product_create request) w) = Done response.
Proof.
  intros Hint. rewrite run_product_create. cbv zeta.
  destruct (method request =? "POST")%string; [| now eexists].
  destruct (validated request _) as [form [cleaned |]] eqn:Hv;
    [| now eexists].
  apply validated_cleaned in Hv as (_ & _ & _ & (k & label & _ & Hk) & _).
  rewrite Hk, Hint. now eexists.
Qed.

(** X6.  When the categories cannot be fetched (no answer, a 4xx or 5xx
    status) or the list fetched is empty, [product_create] writes nothing
    upstream and renders the form again, whatever was submitted; for a POST
    the form carries an error on the field [category]. *)
Theorem product_create_without_categories (request : HttpRequest) (w : W) :
  let gc := GetCategories 10 in
  choices_of (snd (serve _ w gc)) = [] ->
  exists form,
    run serve (product_create request) w
    = (fst (serve _ w gc), [wire_of gc],
       Done (render "products/product_create.html" (Some form) None))
    /\ (method request = "POST" ->
        exists codes, In ("category", codes) (form_errors form)).
Proof.
  cbv zeta. intros Hnone. rewrite run_product_create. cbv zeta.
  rewrite Hnone.
  destruct (String.eqb_spec (method request) "POST") as [Hm | Hm].
  - destruct (validated_without_choices request) as (Hinvalid & codes & Hin).
    destruct (validated request []) as [form cleaned]. cbn in Hinvalid, Hin.
    subst cleaned. exists form. split; [reflexivity |].
    intros _. now exists codes.
  - eexists. split; [reflexivity |]. intros Hm'. contradiction.
Qed.

(** X7.  When the form of a POST is valid and the remote create is lost or
    refused (no answer, a 4xx or 5xx status), [product_create] does not
    redirect: it renders the form again, still bound to the submitted data,
    with the one error 'Error al crear el producto en la API' under no
    field. *)
Theorem product_create_remote_failure (request : HttpRequest) (w : W)
        (form : ProductForm) (cleaned : Cleaned) (k : Z) :
  let gc := GetCategories 10 in
  let post := PostProduct (payload_of cleaned k) 10 in
  method request = "POST" ->
  validated request (choices_of (snd (serve _ w gc))) = (form, Some cleaned) ->
  int (c_category cleaned) = Some k ->
  refused (snd (serve _ (fst (serve _ w gc)) post)) = true ->
  exists form',
    run serve (product_create request) w
    = (fst (serve _ (fst (serve _ w gc)) post), [wire_of gc; wire_of post],
       Done (render "products/product_create.html" (Some form') None))
    /\ form_errors form'
       = [("__all__", ["Error al crear el producto en la API"])]
    /\ form_data form' = Some (POST_ request).
Proof.
  cbv zeta. intros Hm Hv Hk Hrefused.
  rewrite run_product_create. cbv zeta.
  rewrite Hm, String.eqb_refl, Hv, Hk, Hrefused.
  eexists. split; [reflexivity |].
  apply validated_cleaned in Hv as (_ & _ & _ & _ & Herr & Hdata).
  cbn. now rewrite Herr, Hdata.
Qed.

(** X8.  When the form of a POST is valid and the remote create is
    answered with a status that is neither 4xx nor 5xx, [product_create]
    redirects to the product list, after exactly two calls: the request for
    the categories and the POST of the payload built from the cleaned
    data. *)
Theorem product_create_success (request : HttpRequest) (w : W)
        (form : ProductForm) (cleaned : Cleaned) (k : Z) :
  let gc := GetCategories 10 in
  let post := PostProduct (payload_of cleaned k) 10 in
  method request = "POST" ->
  validated request (choices_of (snd (serve _ w gc))) = (form, Some cleaned) ->
  int (c_category cleaned) = Some k ->
  refused (snd (serve _ (fst (serve _ w gc)) post)) = false ->
  run serve (product_create request) w
  = (fst (serve _ (fst (serve _ w gc)) post), [wire_of gc; wire_of post],
     Done (redirect "products:product_list")).
Proof.
  cbv zeta. intros Hm Hv Hk Haccepted.
  rewrite run_product_create. cbv zeta.
  now rewrite Hm, String.eqb_refl, Hv, Hk, Haccepted.
Qed.

(** ** [product_update], case by case *)

Lemma run_product_update (request : HttpRequest) (product_id : Z) (w : W) :
  let gp := GetProduct product_id 5 in
  let gc := GetCategories 5 in
  let w1 := fst (serve _ w gp) in
  let w2 := fst (serve _ w1 gc) in
  let categories := choices_of (snd (serve _ w1 gc)) in
  run serve (product_update request product_id) w
  = match fetched_product (snd (serve _ w gp)) with
    | None => (w1, [wire_of gp], Done (redirect "products:product_list"))
    | Some data =>
        if (method request =? "POST")%string then
          match validated request categories with
          | (form, Some cleaned) =>
              match int (c_category cleaned) with
              | Some k =>
                  let put := PutProduct product_id (payload_of cleaned k) 5 in
                  (fst (serve _ w2 put),
                   [wire_of gp; wire_of gc; wire_of put],
                   Done (if refused (snd (serve _ w2 put))
                         then render "products/product_update.html"
                                (Some (add_error form
                                         "Error al actualizar el producto."))
                                (Some product_id)
                         else redirect "products:product_list"))
              | None => (w2, [wire_of gp; wire_of gc], Failed ValueError)
              end
          | (form, None) =>
              (w2, [wire_of gp; wire_of gc],
               Done (render "products/product_update.html" (Some form)
                       (Some product_id)))
          end
        else
          match d_images data with
          | Some [] => (w2, [wire_of gp; wire_of gc], Failed IndexError)
          | images =>
              (w2, [wire_of gp; wire_of gc],
               Done (render "products/product_update.html"
                       (Some (ProductForm_init None
                                (Some (initial_of data
                                         match images with
                                         | Some (image :: _) => image
                                         | _ => ""
                                         end))
                                categories))
                       (Some product_id)))
          end
    end.
Proof.
  cbv zeta. unfold product_update.
  rewrite run_bind.
  rewrite (run_guarded (GetProduct product_id 5)
             (fun resp => Some (Http.json resp)) None).
  assert (E : match snd (serve _ w (GetProduct product_id 5)) with
              | Http.Answered resp =>
                  if refused (Http.Answered resp) then None
                  else Some (Http.json resp)
              | _ => None
              end
              = fetched_product (snd (serve _ w (GetProduct product_id 5)))).
  { unfold fetched_product. now destruct (snd (serve _ w _)). }
  rewrite E; clear E.
  destruct (fetched_product _) as [data |]; [| reflexivity].
  rewrite run_bind, run_fetch_categories.
  destruct (method request =? "POST")%string.
  - unfold validated.
    destruct (is_valid _) as [form [cleaned |]]; [| reflexivity].
    rewrite run_bind. unfold build_payload, payload_of.
    destruct (int (c_category cleaned)) as [k |]; [| reflexivity].
    cbn [run].
    rewrite (run_guarded _ (fun _ => redirect "products:product_list")).
    cbn [app]. do 2 f_equal.
    now destruct (snd (serve unit _ _)) as [| | resp].
  - rewrite run_bind. unfold first_image, initial_of.
    destruct (d_images data) as [[| image images] |]; reflexivity.
Qed.

(** X9.  When the record to edit cannot be fetched (no answer, a 4xx or
    5xx status), [product_update] redirects to the product list after that
    one call: the categories are not requested and nothing is written,
    whatever the method and the data of the request. *)
Theorem product_update_missing_product (request : HttpRequest)
        (product_id : Z) (w : W) :
  let gp := GetProduct product_id 5 in
  refused (snd (serve _ w gp)) = true ->
  run serve (product_update request product_id) w
  = (fst (serve _ w gp), [wire_of gp],
     Done (redirect "products:product_list")).
Proof.
  cbv zeta. intros Hrefused. rewrite run_product_update. cbv zeta.
  unfold fetched_product.
  destruct (snd (serve _ w _)) as [| | resp]; try reflexivity.
  now rewrite Hrefused.
Qed.

(** X10.  [product_update] raises exactly when the request is not a POST
    and the record fetched has an 'images' list that is empty; the
    exception is then [IndexError], raised after the two GET requests.
    [int] is taken to read back what [str] prints. *)
Theorem product_update_raises_iff (request : HttpRequest) (product_id : Z)
        (w : W) (e : error) :
  (forall k, int (str k) = Some k) ->
  snd (run serve (product_update request product_id) w) = Failed e
  <-> (e = IndexError
       /\ method request <> "POST"
       /\ exists data,
            fetched_product (snd (serve _ w (GetProduct product_id 5)))
            = Some data
            /\ d_images data = Some []).
Proof.
  intros Hint. rewrite run_product_update. cbv zeta.
  destruct (fetched_product _) as [data |].
  2: { split; [discriminate | now intros (_ & _ & ? & ? & _)]. }
  destruct (String.eqb_spec (method request) "POST") as [Hm | Hm].
  - split; [| now intros (_ & ? & _)].
    destruct (validated request _) as [form [cleaned |]] eqn:Hv;
      [| discriminate].
    apply validated_cleaned in Hv as (_ & _ & _ & (k & label & _ & Hk) & _).
    rewrite Hk, Hint. discriminate.
  - destruct (d_images data) as [[| image images] |] eqn:Hi; cbn [snd].
    + split.
      * intros E; inversion E. repeat split; trivial. now exists data.
      * now intros (-> & _).
    + split; [discriminate |].
      intros (_ & _ & data' & E & Hi'). inversion E; subst. congruence.
    + split; [discriminate |].
      intros (_ & _ & data' & E & Hi'). inversion E; subst. congruence.
Qed.

(** X11.  For a request that is not a POST, a fetched record whose 'images'
    key is missing or holds a non-empty list is rendered in the edit form:
    unbound, with the title, price, description and category id of the
    record as initial values and its first image (the empty text when the
    key is missing), with the fetched categories as choices, under the id
    of the product.  Nothing is written upstream. *)
Theorem product_update_prefills_form (request : HttpRequest)
        (product_id : Z) (w : W) (data : ProductData) :
  let gp := GetProduct product_id 5 in
  let gc := GetCategories 5 in
  method request <> "POST" ->
  fetched_product (snd (serve _ w gp)) = Some data ->
  d_images data <> Some [] ->
  exists form,
    run serve (product_update request product_id) w
    = (fst (serve _ (fst (serve _ w gp)) gc), [wire_of gp; wire_of gc],
       Done (render "products/product_update.html" (Some form)
               (Some product_id)))
    /\ form_data form = None
    /\ form_initial form
       = Some (initial_of data (hd "" (match d_images data with
                                       | Some images => images
                                       | None => [""]
                                       end)))
    /\ choices form = choices_of (snd (serve _ (fst (serve _ w gp)) gc))
    /\ form_errors form = [].
Proof.
  cbv zeta. intros Hm Hdata Himages.
  rewrite run_product_update. cbv zeta. rewrite Hdata.
  apply String.eqb_neq in Hm. rewrite Hm.
  destruct (d_images data) as [[| image images] |];
    [now elim Himages | |];
    (eexists; split; [reflexivity |]);
    cbn [form_data form_initial form_errors ProductForm_init hd];
    rewrite choices_init; now repeat split.
Qed.

(** X12.  Whatever the request and the server, [product_update] issues at
    most three calls, in this order: the GET of the product, the GET of the
    categories, and one PUT.  When it issues the PUT, the request was a
    POST, the PUT goes to the URL of the product that was fetched, and the
    JSON sent carries a category id that is among the categories just
    fetched, a non-empty title of at most 255 characters and exactly one
    image.  [int] is taken to read back what [str] prints. *)
Theorem product_update_puts_validated_data (request : HttpRequest)
        (product_id : Z) (w : W) :
  (forall k, int (str k) = Some k) ->
  let gp := GetProduct product_id 5 in
  let gc := GetCategories 5 in
  let calls := snd (fst (run serve (product_update request product_id) w)) in
  calls = [wire_of gp]
  \/ calls = [wire_of gp; wire_of gc]
  \/ exists payload,
       calls = [wire_of gp; wire_of gc;
                wire_of (PutProduct product_id payload 5)]
       /\ method request = "POST"
       /\ w_url (wire_of (PutProduct product_id payload 5))
          = w_url (wire_of gp)
       /\ In (p_categoryId payload)
             (map fst (choices_of (snd (serve _ (fst (serve _ w gp)) gc))))
       /\ p_title payload <> ""
       /\ (String.length (p_title payload) <= 255)%nat
       /\ length (p_images payload) = 1%nat.
Proof.
  intros Hint. cbv zeta. rewrite run_product_update. cbv zeta.
  destruct (fetched_product _) as [data |]; [| now left].
  destruct (String.eqb_spec (method request) "POST") as [Hm |].
  - destruct (validated request _) as [form [cleaned |]] eqn:Hv;
      [| now right; left].
    apply validated_cleaned in Hv
      as (Ht & Hlen & _ & (k & label & Hin & Hk) & _ & _).
    rewrite Hk, Hint. right; right. exists (payload_of cleaned k).
    repeat split; trivial.
    apply in_map_iff. now exists (k, label).
  - right; left. now destruct (d_images data) as [[| image images] |].
Qed.

(** X13.  When the form of a POST is valid and the remote update is lost or
    refused (no answer, a 4xx or 5xx status), [product_update] does not
    redirect: it renders the edit form of the same product again, still
    bound to the submitted data, with the one error 'Error al actualizar el
    producto.' under no field. *)
Theorem product_update_remote_failure (request : HttpRequest)
        (product_id : Z) (w : W) (data : ProductData) (form : ProductForm)
        (cleaned : Cleaned) (k : Z) :
  let gp := GetProduct product_id 5 in
  let gc := GetCategories 5 in
  let put := PutProduct product_id (payload_of cleaned k) 5 in
  let w2 := fst (serve _ (fst (serve _ w gp)) gc) in
  method request = "POST" ->
  fetched_product (snd (serve _ w gp)) = Some data ->
  validated request (choices_of (snd (serve _ (fst (serve _ w gp)) gc)))
  = (form, Some cleaned) ->
  int (c_category cleaned) = Some k ->
  refused (snd (serve _ w2 put)) = true ->
  exists form',
    run serve (product_update request product_id) w
    = (fst (serve _ w2 put), [wire_of gp; wire_of gc; wire_of put],
       Done (render "products/product_update.html" (Some form')
               (Some product_id)))
    /\ form_errors form' = [("__all__", ["Error al actualizar el producto."])]
    /\ form_data form' = Some (POST_ request).
Proof.
  cbv zeta. intros Hm Hdata Hv Hk Hrefused.
  rewrite run_product_update. cbv zeta.
  rewrite Hdata, Hm, String.eqb_refl, Hv, Hk, Hrefused.
  eexists. split; [reflexivity |].
  apply validated_cleaned in Hv as (_ & _ & _ & _ & Herr & Hform).
  cbn. now rewrite Herr, Hform.
Qed.

End WithFramework.
(** ** The theorems at work *)

Lemma toy_int_str (k : Z) : toy_int (str k) = Some k.
Proof.
  unfold toy_int, str. rewrite NilZero.isi.
  - cbn. now rewrite DecimalZ.of_to.
  - destruct k as [| p | p]; cbn; try discriminate.
    intros E. injection E as E.
    now apply DecimalPos.Unsigned.to_uint_nonnil in E.
  - destruct k as [| p | p]; cbn; try discriminate.
    intros E. injection E as E.
    now apply DecimalPos.Unsigned.to_uint_nonnil in E.
Qed.

Lemma product_create_posts_validated_data_witness :
  let gc := GetCategories 10 in
  let calls :=
    snd (fst (run (toy_server mug_data)
                  (product_create (SM := AsciiStr) toy_post) tt)) in
  calls = [wire_of gc]
  \/ exists payload,
       calls = [wire_of gc; wire_of (PostProduct payload 10)]
       /\ method toy_post = "POST"
       /\ In (p_categoryId payload)
             (map fst (choices_of (snd (toy_server mug_data _ tt gc))))
       /\ p_title payload <> ""
       /\ (String.length (p_title payload) <= 255)%nat
       /\ p_description payload <> ""
       /\ length (p_images payload) = 1%nat.
Proof.
  exact (product_create_posts_validated_data (F := ToyFramework)
           (SM := AsciiStr) unit (toy_server mug_data) toy_post tt
           toy_int_str).
Defined.

Lemma product_create_never_raises_witness :
  exists response,
    snd (run silent_server (product_create (SM := AsciiStr) toy_post) tt)
    = Done response.
Proof.
  exact (product_create_never_raises (F := ToyFramework) (SM := AsciiStr)
           unit silent_server toy_post tt toy_int_str).
Defined.

Lemma product_create_without_categories_witness :
  exists form,
    run silent_server (product_create (SM := AsciiStr) toy_post) tt
    = (tt, [wire_of (GetCategories 10)],
       Done (render "products/product_create.html" (Some form) None))
    /\ (method toy_post = "POST" ->
        exists codes, In ("category", codes) (form_errors form)).
Proof.
  apply (product_create_without_categories (F := ToyFramework)
           (SM := AsciiStr) unit silent_server toy_post tt).
  reflexivity.
Defined.

Lemma product_create_remote_failure_witness :
  exists form',
    run readonly_server (product_create (SM := AsciiStr) toy_post) tt
    = (tt, [wire_of (GetCategories 10); wire_of (PostProduct mug_payload 10)],
       Done (render "products/product_create.html" (Some form') None))
    /\ form_errors form'
       = [("__all__", ["Error al crear el producto en la API"])]
    /\ form_data form' = Some (POST_ toy_post).
Proof.
  apply (product_create_remote_failure (F := ToyFramework) (SM := AsciiStr)
           unit readonly_server toy_post tt mug_bound_form mug_cleaned 2);
    reflexivity.
Defined.

Lemma product_create_success_witness :
  run (toy_server mug_data) (product_create (SM := AsciiStr) toy_post) tt
  = (tt, [wire_of (GetCategories 10); wire_of (PostProduct mug_payload 10)],
     Done (redirect "products:product_list")).
Proof.
  apply (product_create_success (F := ToyFramework) (SM := AsciiStr)
           unit (toy_server mug_data) toy_post tt mug_bound_form
           mug_cleaned 2);
    reflexivity.
Defined.

Lemma product_update_missing_product_witness :
  run silent_server (product_update (SM := AsciiStr) toy_post 7) tt
  = (tt, [wire_of (GetProduct 7 5)],
     Done (redirect "products:product_list")).
Proof.
  apply (product_update_missing_product (F := ToyFramework)
           (SM := AsciiStr) unit silent_server toy_post 7 tt).
  reflexivity.
Defined.

Lemma product_update_raises_iff_witness :
  snd (run (toy_server bare_data) (product_update (SM := AsciiStr) toy_get 7)
           tt)
  = Failed IndexError
  <-> (IndexError = IndexError
       /\ method toy_get <> "POST"
       /\ exists data,
            fetched_product (snd (toy_server bare_data _ tt (GetProduct 7 5)))
            = Some data
            /\ d_images data = Some []).
Proof.
  exact (product_update_raises_iff (F := ToyFramework) (SM := AsciiStr)
           unit (toy_server bare_data) toy_get 7 tt IndexError toy_int_str).
Defined.

Lemma product_update_prefills_form_witness :
  exists form,
    run (toy_server mug_data) (product_update (SM := AsciiStr) toy_get 7) tt
    = (tt, [wire_of (GetProduct 7 5); wire_of (GetCategories 5)],
       Done (render "products/product_update.html" (Some form) (Some 7)))
    /\ form_data form = None
    /\ form_initial form
       = Some (initial_of mug_data "https://example.org/mug.png")
    /\ choices form = [(1, "Clothes"); (2, "Home")]
    /\ form_errors form = [].
Proof.
  apply (product_update_prefills_form (F := ToyFramework) (SM := AsciiStr)
           unit (toy_server mug_data) toy_get 7 tt mug_data);
    solve [reflexivity | discriminate].
Defined.

Lemma product_update_puts_validated_data_witness :
  let gp := GetProduct 7 5 in
  let gc := GetCategories 5 in
  let calls :=
    snd (fst (run (toy_server mug_data)
                  (product_update (SM := AsciiStr) toy_post 7) tt)) in
  calls = [wire_of gp]
  \/ calls = [wire_of gp; wire_of gc]
  \/ exists payload,
       calls = [wire_of gp; wire_of gc; wire_of (PutProduct 7 payload 5)]
       /\ method toy_post = "POST"
       /\ w_url (wire_of (PutProduct 7 payload 5)) = w_url (wire_of gp)
       /\ In (p_categoryId payload)
             (map fst (choices_of
                         (snd (toy_server mug_data _
                                 (fst (toy_server mug_data _ tt gp)) gc))))
       /\ p_title payload <> ""
       /\ (String.length (p_title payload) <= 255)%nat
       /\ length (p_images payload) = 1%nat.
Proof.
  exact (product_update_puts_validated_data (F := ToyFramework)
           (SM := AsciiStr) unit (toy_server mug_data) toy_post 7 tt
           toy_int_str).
Defined.

Lemma product_update_remote_failure_witness :
  exists form',
    run readonly_server (product_update (SM := AsciiStr) toy_post 7) tt
    = (tt,
       [wire_of (GetProduct 7 5); wire_of (GetCategories 5);
        wire_of (PutProduct 7 mug_payload 5)],
       Done (render "products/product_update.html" (Some form') (Some 7)))
    /\ form_errors form' = [("__all__", ["Error al actualizar el producto."])]
    /\ form_data form' = Some (POST_ toy_post).
Proof.
  apply (product_update_remote_failure (F := ToyFramework) (SM := AsciiStr)
           unit readonly_server toy_post 7 tt mug_data mug_bound_form
           mug_cleaned 2);
    reflexivity.
Defined.

End CatalogProofs.

(* ================================================================== *)
(** * Further properties of the account API *)
(* ================================================================== *)

Module AccountsApiProofs.
Import Py Db Accounts AccountsSerializers AccountsVocabulary.
Local Open Scope db_scope.

(** ** Keys are never shared *)

Lemma keys_unique_on_users {A : Type} (m : Mu A) :
  preserves keys_unique (on_users m).
Proof.
  intros d Hd. unfold on_users.
  destruct (m (users d)) as [us o]. exact Hd.
Qed.

Lemma filtered_keys_unique (keep : Token -> bool) (ts : list Token)
      (Hts : NoDup (map key ts)) :
  NoDup (map key (filter keep ts)).
Proof.
  induction ts as [| row ts IH]; [constructor |].
  apply NoDup_cons_iff in Hts as [Hfresh Hts].
  cbn [filter]. destruct (keep row); [| now apply IH].
  cbn [map]. apply NoDup_cons; [| now apply IH].
  contradict Hfresh.
  apply in_map_iff in Hfresh as (other & Hkey & Hother).
  apply filter_In in Hother as [Hother _].
  rewrite <- Hkey. now apply in_map.
Qed.

Lemma keys_unique_Token_delete (t : Token) :
  preserves keys_unique (Token_delete t).
Proof.
  intros d Hd. unfold keys_unique, Token_delete; simpl.
  now apply filtered_keys_unique.
Qed.

Lemma keys_unique_get_or_create (u : User) (generated : string) :
  preserves keys_unique (Token_objects_get_or_create u generated).
Proof.
  intros d Hd.
  unfold Token_objects_get_or_create, try_except, bind, Token_objects_get.
  destruct (rows_of (pk u) (tokens d)) as [| t [| t' ts]];
    simpl; try exact Hd.
  unfold Token_objects_create.
  destruct (existsb _ (tokens d)) eqn:Htaken; simpl; [exact Hd |].
  destruct (negb (existsb _ (users d))); simpl; [exact Hd |].
  unfold keys_unique; simpl. rewrite map_app; simpl.
  apply NoDup_app; [exact Hd | repeat constructor; simpl; tauto |].
  intros k Hk [<- | []].
  apply in_map_iff in Hk as (t & Hkey & Hin).
  assert (existsb (fun t => (key t =? generated)%string) (tokens d) = true).
  { apply existsb_exists. exists t. split; [exact Hin |].
    now apply String.eqb_eq. }
  congruence.
Qed.

Lemma keys_unique_dispatch {S : Serializers} (o : op) :
  preserves keys_unique (dispatch o).
Proof.
  destruct o as [g r | g r | r | r | r]; simpl.
  - apply AccountsProofs.preserves_register_api;
      [apply keys_unique_on_users
      | intros u; apply keys_unique_get_or_create].
  - apply AccountsProofs.preserves_login_api.
    intros u. apply keys_unique_get_or_create.
  - apply AccountsProofs.preserves_logout_api.
    apply keys_unique_Token_delete.
  - apply AccountsProofs.preserves_user_profile_api.
  - apply AccountsProofs.preserves_check_username_api.
Qed.

Lemma keys_unique_reachable {S : Serializers} (d : db) :
  reachable d -> keys_unique d.
Proof.
  induction 1 as [| d o _ IH]; [constructor |].
  unfold step. now apply keys_unique_dispatch.
Qed.

(** ** Logging in twice *)

Section AnySerializers.
Context {S : Serializers}.

(** What a 200 answer of [login_api] to a POST tells. *)
Lemma login_api_ok (d d1 : db) (generated : string) (request : HttpRequest)
      (resp : Response) :
  method request = "POST" ->
  login_api generated request d = (d1, Returned resp) ->
  status resp = 200 ->
  exists u tk,
    UserLoginSerializer_validate (users d) (data request) = inr u
    /\ users d1 = users d
    /\ rows_of (pk u) (tokens d1) = [tk]
    /\ resp = {| response_data :=
                   [("success", Scalar (Bool true));
                    ("message", Scalar (Str "Autenticación satisfactoria"));
                    ("user", Object (UserSerializer_data u));
                    ("token", Scalar (Str (key tk)))];
                 status := 200 |}.
Proof.
  intros Hm. unfold login_api, api_view, AllowAny. rewrite Hm. cbn.
  unfold bind at 1, User_objects_all. cbn [fst snd].
  destruct (UserLoginSerializer_validate (users d) (data request))
    as [e | u]; [intros E; inversion E; subst; discriminate |].
  unfold bind, login, ret.
  destruct (Token_objects_get_or_create u generated d)
    as [d' [[tk created] | e]] eqn:Htoken; [| discriminate].
  intros E _; inversion E; subst; clear E.
  apply AccountsProofs.get_or_create_returned in Htoken as [Husers Hrows].
  exists u, tk. now repeat split.
Qed.

(** X14.  If [login_api] answers 200 to a POST, the same request sent again
    gets the same answer, token included, and leaves the token table and
    the user rows (as [User] carries them) as they are, whatever key is
    drawn the second time. *)
Theorem login_api_idempotent (d d1 : db) (generated generated' : string)
        (request : HttpRequest) (resp : Response) :
  method request = "POST" ->
  login_api generated request d = (d1, Returned resp) ->
  status resp = 200 ->
  login_api generated' request d1 = (d1, Returned resp).
Proof.
  intros Hm Hlogin Hstatus.
  destruct (login_api_ok _ _ _ _ _ Hm Hlogin Hstatus)
    as (u & tk & Hvalid & Husers & Hrows & ->).
  unfold login_api, api_view, AllowAny. rewrite Hm. cbn.
  unfold bind at 1, User_objects_all. cbn [fst snd].
  rewrite Husers, Hvalid.
  unfold bind, login, ret, Token_objects_get_or_create, try_except, bind,
    Token_objects_get.
  rewrite Hrows. reflexivity.
Qed.

(** The first login of a user without a token row, step by step. *)
Lemma login_api_creates (d : db) (generated : string)
      (request : HttpRequest) (u : User) :
  method request = "POST" ->
  UserLoginSerializer_validate (users d) (data request) = inr u ->
  rows_of (pk u) (tokens d) = [] ->
  existsb (fun t => (key t =? generated)%string) (tokens d) = false ->
  existsb (fun u' => pk u' =? pk u) (users d) = true ->
  login_api generated request d
  = ({| users := users d;
        tokens :=
          (tokens d ++ [{| key := generated; user_id := pk u |}])%list |},
     Returned {| response_data :=
                   [("success", Scalar (Bool true));
                    ("message", Scalar (Str "Autenticación satisfactoria"));
                    ("user", Object (UserSerializer_data u));
                    ("token", Scalar (Str generated))];
                 status := 200 |}).
Proof.
  intros Hm Hvalid Hrows Hfree Hrow.
  unfold login_api, api_view, AllowAny. rewrite Hm. cbn.
  unfold bind at 1, User_objects_all. cbn [fst snd].
  rewrite Hvalid.
  unfold bind, login, ret, Token_objects_get_or_create, try_except, bind,
    Token_objects_get, Token_objects_create.
  rewrite Hrows. cbn. rewrite Hfree, Hrow. reflexivity.
Qed.

(** X15.  A user without a token row who logs in is answered 200 with the
    key drawn during the call as token, and exactly the row of that key and
    that user is added behind the token table; the user rows (as [User]
    carries them) are untouched.  The key must be free and the user row
    must exist. *)
Theorem login_api_issues_generated_key (d : db) (generated : string)
        (request : HttpRequest) (u : User) :
  method request = "POST" ->
  UserLoginSerializer_validate (users d) (data request) = inr u ->
  rows_of (pk u) (tokens d) = [] ->
  existsb (fun t => (key t =? generated)%string) (tokens d) = false ->
  existsb (fun u' => pk u' =? pk u) (users d) = true ->
  exists d' payload,
    login_api generated request d
    = (d', Returned {| response_data := payload; status := 200 |})
    /\ dict_get payload "token" = Some (Scalar (Str generated))
    /\ users d' = users d
    /\ tokens d'
       = (tokens d ++ [{| key := generated; user_id := pk u |}])%list.
Proof.
  intros Hm Hvalid Hrows Hfree Hrow.
  do 2 eexists. split.
  - exact (login_api_creates d generated request u Hm Hvalid Hrows Hfree Hrow).
  - now repeat split.
Qed.

(** X16.  When the login serializer rejects the data, [login_api] answers
    400 with the errors of the serializer and writes nothing: no token is
    looked up or created. *)
Theorem login_api_rejected (d : db) (generated : string)
        (request : HttpRequest) (errors : Errors) :
  method request = "POST" ->
  UserLoginSerializer_validate (users d) (data request) = inl errors ->
  login_api generated request d
  = (d, Returned {| response_data :=
                      [("success", Scalar (Bool false));
                       ("message", Scalar (Str "Error en la autenticación"));
                       ("errors", ErrorDict errors)];
                    status := 400 |}).
Proof.
  intros Hm Hvalid.
  unfold login_api, api_view, AllowAny. rewrite Hm. cbn.
  unfold bind at 1, User_objects_all. cbn [fst snd].
  now rewrite Hvalid.
Qed.

(** X17.  When the registration serializer reports any error, whatever its
    field, [register_api] answers 400 with exactly those errors and writes
    nothing: neither [save()] nor [get_or_create] runs. *)
Theorem register_api_rejected (d : db) (generated : string)
        (request : HttpRequest) :
  method request = "POST" ->
  UserRegistrationSerializer_errors (users d) (data request) <> [] ->
  register_api generated request d
  = (d, Returned {| response_data :=
                      [("success", Scalar (Bool false));
                       ("message", Scalar (Str "Error en el registro"));
                       ("errors",
                        ErrorDict (UserRegistrationSerializer_errors
                                     (users d) (data request)))];
                    status := 400 |}).
Proof.
  intros Hm Herr.
  unfold register_api, api_view, AllowAny. rewrite Hm. cbn.
  unfold bind at 1, User_objects_all. cbn [fst snd].
  destruct (UserRegistrationSerializer_errors (users d) (data request));
    [now elim Herr | reflexivity].
Qed.

End AnySerializers.

(** ** Logging out *)

Lemma rows_of_filter_comm (uid : Z) (f : Token -> bool) (ts : list Token) :
  rows_of uid (filter f ts) = filter f (rows_of uid ts).
Proof.
  unfold rows_of. induction ts as [| t ts IH]; simpl; [reflexivity |].
  destruct (f t) eqn:Hf, (user_id t =? uid) eqn:Hu; simpl;
    rewrite ?Hf, ?Hu, IH; reflexivity.
Qed.

Lemma same_key_same_row (ts : list Token) (a b : Token) :
  NoDup (map key ts) -> In a ts -> In b ts -> key a = key b -> a = b.
Proof.
  induction ts as [| t ts IH]; simpl; intros Hnd Ha Hb Hk; [easy |].
  inversion Hnd as [| ? ? Hnotin Hnd']; subst.
  destruct Ha as [-> | Ha], Hb as [-> | Hb]; trivial.
  - elim Hnotin. rewrite Hk. now apply in_map.
  - elim Hnotin. rewrite <- Hk. now apply in_map.
  - now apply IH.
Qed.

(** The logout of a user with one token row, step by step. *)
Lemma logout_api_deletes (d : db) (request : HttpRequest) (u : User)
      (tk : Token) :
  method request = "POST" ->
  user request = Some u ->
  rows_of (pk u) (tokens d) = [tk] ->
  logout_api request d
  = ({| users := users d;
        tokens :=
          filter (fun t => negb (key t =? key tk)%string) (tokens d) |},
     Returned {| response_data :=
                   [("success", Scalar (Bool true));
                    ("message", Scalar (Str "Sesión cerrada exitosamente"))];
                 status := 200 |}).
Proof.
  intros Hm Hu Hrows.
  unfold logout_api, api_view, IsAuthenticated. rewrite Hm, Hu. cbn.
  unfold try_except, bind, auth_token, Token_objects_get.
  rewrite Hrows. cbn. reflexivity.
Qed.

(** X18.  An authenticated POST to [logout_api] by a user with one token row
    answers 200 and removes that row: the user is left without a token and
    the user table is untouched.  When keys are unique, as they are in every
    reachable state, the rows of all other users stay as they were. *)
Theorem logout_api_revokes (d : db) (request : HttpRequest) (u : User)
        (tk : Token) :
  method request = "POST" ->
  user request = Some u ->
  rows_of (pk u) (tokens d) = [tk] ->
  exists d',
    logout_api request d
    = (d', Returned {| response_data :=
                         [("success", Scalar (Bool true));
                          ("message",
                           Scalar (Str "Sesión cerrada exitosamente"))];
                       status := 200 |})
    /\ users d' = users d
    /\ rows_of (pk u) (tokens d') = []
    /\ (keys_unique d ->
        forall uid, uid <> pk u ->
                    rows_of uid (tokens d') = rows_of uid (tokens d)).
Proof.
  intros Hm Hu Hrows.
  eexists. split; [| split; [| split]].
  - exact (logout_api_deletes d request u tk Hm Hu Hrows).
  - reflexivity.
  - cbn [tokens]. rewrite rows_of_filter_comm, Hrows. simpl.
    now rewrite String.eqb_refl.
  - intros Hkeys uid Hne. cbn [tokens].
    rewrite rows_of_filter_comm.
    apply forallb_filter_id. apply forallb_forall. intros t Hin.
    apply filter_In in Hin as [Hin Huid].
    apply negb_true_iff, String.eqb_neq. intros Hk.
    assert (Htk : In tk (tokens d)).
    { assert (H1 : In tk (rows_of (pk u) (tokens d)))
        by (rewrite Hrows; now left).
      now apply filter_In in H1. }
    assert (Hpk : user_id tk = pk u).
    { assert (H1 : In tk (rows_of (pk u) (tokens d)))
        by (rewrite Hrows; now left).
      apply filter_In in H1 as [_ H1]. now apply Z.eqb_eq. }
    rewrite (same_key_same_row _ _ _ Hkeys Hin Htk Hk) in Huid.
    apply Z.eqb_eq in Huid. congruence.
Qed.

(** X19.  An authenticated POST to [logout_api] by a user without a token
    row is answered 400 with [success] false: the missing row raises, the
    [except Exception] catches it, and nothing is written. *)
Theorem logout_api_without_token (d : db) (request : HttpRequest) (u : User) :
  method request = "POST" ->
  user request = Some u ->
  rows_of (pk u) (tokens d) = [] ->
  exists payload,
    logout_api request d
    = (d, Returned {| response_data := payload; status := 400 |})
    /\ dict_get payload "success" = Some (Scalar (Bool false)).
Proof.
  intros Hm Hu Hrows. eexists. split.
  - unfold logout_api, api_view, IsAuthenticated. rewrite Hm, Hu. cbn.
    unfold try_except, bind, auth_token, Token_objects_get.
    rewrite Hrows. cbn. reflexivity.
  - reflexivity.
Qed.

(** X20.  Tokens are not kept across a logout: after the logout of a user
    with one token row, a login that validates to this user answers with
    the key drawn during the login, not with the old token, and that key is
    then the user's one row. *)
Theorem login_after_logout_issues_new_key {S : Serializers} (d : db)
        (out_request in_request : HttpRequest) (u : User) (tk : Token)
        (generated : string) :
  method out_request = "POST" ->
  user out_request = Some u ->
  rows_of (pk u) (tokens d) = [tk] ->
  method in_request = "POST" ->
  UserLoginSerializer_validate (users d) (data in_request) = inr u ->
  existsb (fun u' => pk u' =? pk u) (users d) = true ->
  existsb (fun t => (key t =? generated)%string)
          (filter (fun t => negb (key t =? key tk)%string) (tokens d))
  = false ->
  exists d2 payload,
    login_api generated in_request (fst (logout_api out_request d))
    = (d2, Returned {| response_data := payload; status := 200 |})
    /\ dict_get payload "token" = Some (Scalar (Str generated))
    /\ rows_of (pk u) (tokens d2) = [{| key := generated; user_id := pk u |}].
Proof.
  intros Hom Hou Hrows Him Hvalid Hrow Hfree.
  rewrite (logout_api_deletes d out_request u tk Hom Hou Hrows). cbn [fst].
  set (d1 := {| users := users d;
                tokens := filter (fun t => negb (key t =? key tk)%string)
                                 (tokens d) |}).
  assert (Hnone : rows_of (pk u) (tokens d1) = []).
  { cbn [d1 tokens]. rewrite rows_of_filter_comm, Hrows. simpl.
    now rewrite String.eqb_refl. }
  do 2 eexists. split; [| split].
  - now apply (login_api_creates d1 generated in_request u).
  - reflexivity.
  - cbn [tokens]. rewrite AccountsProofs.rows_of_app, Hnone. unfold rows_of.
    simpl. now rewrite Z.eqb_refl.
Qed.

(** ** Which view writes which table *)

Lemma users_kept_get_or_create (us : list User) (u : User)
      (generated : string) :
  preserves (fun d => users d = us) (Token_objects_get_or_create u generated).
Proof.
  intros d Hd.
  unfold Token_objects_get_or_create, try_except, bind, Token_objects_get.
  destruct (rows_of (pk u) (tokens d)) as [| t [| t' ts]];
    simpl; try exact Hd.
  unfold Token_objects_create.
  destruct (existsb _ (tokens d) || negb (existsb _ (users d)));
    simpl; exact Hd.
Qed.

(** X21.  Only [register_api] writes the user table: a call of any of the
    four other API views adds, removes and changes no user row (as [User]
    carries them), whatever the call ends in. *)
Theorem only_register_api_writes_users {S : Serializers} (d : db) (o : op) :
  is_register o = false ->
  users (step d o) = users d.
Proof.
  intros Ho. unfold step.
  assert (Hp : preserves (fun d' => users d' = users d) (dispatch o)).
  { destruct o as [g r | g r | r | r | r]; simpl; try discriminate.
    - apply AccountsProofs.preserves_login_api.
      intros v. apply users_kept_get_or_create.
    - apply AccountsProofs.preserves_logout_api.
      intros t d' Hd'. exact Hd'.
    - apply AccountsProofs.preserves_user_profile_api.
    - apply AccountsProofs.preserves_check_username_api. }
  now apply Hp.
Qed.

Lemma tokens_appended_get_or_create (ts : list Token) (u : User)
      (generated : string) :
  preserves (fun d => exists extra, tokens d = (ts ++ extra)%list)
            (Token_objects_get_or_create u generated).
Proof.
  intros d Hd.
  unfold Token_objects_get_or_create, try_except, bind, Token_objects_get.
  destruct (rows_of (pk u) (tokens d)) as [| t [| t' ts']];
    simpl; try exact Hd.
  unfold Token_objects_create.
  destruct (existsb _ (tokens d) || negb (existsb _ (users d)));
    simpl; [exact Hd |].
  destruct Hd as [extra ->]. eexists. now rewrite <- app_assoc.
Qed.

(** X22.  Token rows are removed by [logout_api] alone: after a call of any
    of the four other API views every row that was in the token table is
    still there, unchanged and in place; rows are only added behind. *)
Theorem only_logout_api_removes_tokens {S : Serializers} (d : db) (o : op) :
  is_logout o = false ->
  exists extra, tokens (step d o) = (tokens d ++ extra)%list.
Proof.
  intros Ho. unfold step.
  assert (Hp : preserves
                 (fun d' => exists extra, tokens d' = (tokens d ++ extra)%list)
                 (dispatch o)).
  { destruct o as [g r | g r | r | r | r]; simpl; try discriminate.
    - apply AccountsProofs.preserves_register_api.
      + intros d' Hd'. unfold on_users.
        destruct (UserRegistrationSerializer_save (data r) (users d'));
          exact Hd'.
      + intros v. apply tokens_appended_get_or_create.
    - apply AccountsProofs.preserves_login_api.
      intros v. apply tokens_appended_get_or_create.
    - apply AccountsProofs.preserves_user_profile_api.
    - apply AccountsProofs.preserves_check_username_api. }
  apply Hp. exists []. now rewrite app_nil_r.
Qed.

(** ** The theorems at work *)

Lemma login_api_idempotent_witness :
  login_api (S := TagSerializers) "k9" (post ana_credentials) ana_logged_in
  = (ana_logged_in,
     Returned {| response_data :=
                   [("success", Scalar (Bool true));
                    ("message", Scalar (Str "Autenticación satisfactoria"));
                    ("user", Object (user_data ana));
                    ("token", Scalar (Str "k1"))];
                 status := 200 |}).
Proof.
  apply (login_api_idempotent (S := TagSerializers) ana_logged_out
           ana_logged_in "k1" "k9" (post ana_credentials));
    reflexivity.
Defined.

Lemma login_api_issues_generated_key_witness :
  exists d' payload,
    login_api (S := TagSerializers) "k1" (post ana_credentials)
              ana_logged_out
    = (d', Returned {| response_data := payload; status := 200 |})
    /\ dict_get payload "token" = Some (Scalar (Str "k1"))
    /\ users d' = users ana_logged_out
    /\ tokens d'
       = (tokens ana_logged_out ++ [{| key := "k1"; user_id := pk ana |}])%list.
Proof.
  apply (login_api_issues_generated_key (S := TagSerializers) ana_logged_out
           "k1" (post ana_credentials) ana);
    reflexivity.
Defined.

Lemma login_api_rejected_witness :
  login_api (S := TagSerializers) "k9"
            (post [("username", "ana"); ("password", "wrong")]) ana_logged_in
  = (ana_logged_in,
     Returned {| response_data :=
                   [("success", Scalar (Bool false));
                    ("message", Scalar (Str "Error en la autenticación"));
                    ("errors",
                     ErrorDict [("non_field_errors",
                                 ["invalid_credentials"])])];
                 status := 400 |}).
Proof.
  apply (login_api_rejected (S := TagSerializers) ana_logged_in "k9"
           (post [("username", "ana"); ("password", "wrong")]));
    reflexivity.
Defined.

Lemma register_api_rejected_witness :
  register_api (S := TagSerializers) "k9" (post ana_registration)
               ana_logged_in
  = (ana_logged_in,
     Returned {| response_data :=
                   [("success", Scalar (Bool false));
                    ("message", Scalar (Str "Error en el registro"));
                    ("errors", ErrorDict [("username", ["unique"])])];
                 status := 400 |}).
Proof.
  apply (register_api_rejected (S := TagSerializers) ana_logged_in "k9"
           (post ana_registration)).
  - reflexivity.
  - discriminate.
Defined.

Lemma logout_api_revokes_witness :
  exists d',
    logout_api (as_user ana "POST") ana_logged_in
    = (d', Returned {| response_data :=
                         [("success", Scalar (Bool true));
                          ("message",
                           Scalar (Str "Sesión cerrada exitosamente"))];
                       status := 200 |})
    /\ users d' = users ana_logged_in
    /\ rows_of (pk ana) (tokens d') = []
    /\ (keys_unique ana_logged_in ->
        forall uid, uid <> pk ana ->
                    rows_of uid (tokens d')
                    = rows_of uid (tokens ana_logged_in)).
Proof.
  apply (logout_api_revokes ana_logged_in (as_user ana "POST") ana ana_token);
    reflexivity.
Defined.

Lemma logout_api_without_token_witness :
  exists payload,
    logout_api (as_user ana "POST") ana_logged_out
    = (ana_logged_out,
       Returned {| response_data := payload; status := 400 |})
    /\ dict_get payload "success" = Some (Scalar (Bool false)).
Proof.
  apply (logout_api_without_token ana_logged_out (as_user ana "POST") ana);
    reflexivity.
Defined.

Lemma login_after_logout_issues_new_key_witness :
  exists d2 payload,
    login_api (S := TagSerializers) "k2" (post ana_credentials)
              (fst (logout_api (as_user ana "POST") ana_logged_in))
    = (d2, Returned {| response_data := payload; status := 200 |})
    /\ dict_get payload "token" = Some (Scalar (Str "k2"))
    /\ rows_of (pk ana) (tokens d2) = [{| key := "k2"; user_id := pk ana |}].
Proof.
  apply (login_after_logout_issues_new_key (S := TagSerializers)
           ana_logged_in (as_user ana "POST") (post ana_credentials)
           ana ana_token "k2");
    reflexivity.
Defined.

Lemma only_register_api_writes_users_witness :
  users (step (S := TagSerializers) ana_logged_in
              (Logout (as_user ana "POST")))
  = users ana_logged_in.
Proof.
  apply (only_register_api_writes_users (S := TagSerializers)).
  reflexivity.
Defined.

Lemma only_logout_api_removes_tokens_witness :
  exists extra,
    tokens (step (S := TagSerializers) ana_logged_in
                 (Register "k2"
                    (post [("username", "bea"); ("email", "bea@example.org");
                           ("password", "s3cretpass");
                           ("password2", "s3cretpass")])))
    = (tokens ana_logged_in ++ extra)%list.
Proof.
  apply (only_logout_api_removes_tokens (S := TagSerializers)).
  reflexivity.
Defined.

End AccountsApiProofs.

(* ================================================================== *)
(** * Properties of the form views of accounts/views.py *)
(* ================================================================== *)

Module AccountsWebProofs.
Import Py Db Accounts AccountsSerializers AccountsVocabulary AccountsWeb.
Local Open Scope web_scope.

Example toy_login_page :
  login_view (FM := ToyForms) (ana_login_page "/productos/") ana_logged_out
  = (ana_logged_out,
     [LoggedIn ana; Message "success" "¡Hola de nuevo, ana!" ""],
     Returned (redirect "/productos/")).
Proof. reflexivity. Qed.

Section AnyForms.
Context {FM : Forms}.

(** X23.  A visitor who is already authenticated is sent to the home page
    by [register_view] and by [login_view], whatever the method and the
    data of the request: no user is created, nobody is logged in, no
    message is queued and the tables stay as they were. *)
Theorem form_views_redirect_authenticated (d : db) (request : HttpRequest)
        (u : User) :
  user request = Some u ->
  register_view request d = (d, [], Returned (redirect "products:home"))
  /\ login_view request d = (d, [], Returned (redirect "products:home")).
Proof.
  intros Hu. unfold register_view, login_view, is_authenticated.
  now rewrite Hu.
Qed.


(** X25.  When the login form is valid but [authenticate] finds no user,
    [login_view] renders the login page again with the one error 'Usuario o
    contraseña incorrectos.' under no field: nobody is logged in, no
    message is queued, the tables stay as they were. *)
Theorem login_view_bad_credentials (d : db) (request : HttpRequest) :
  user request = None ->
  method request = "POST" ->
  UserLoginForm_errors (users d) (data request) = [] ->
  authenticate (users d)
    (cd_login_username (UserLoginForm_cleaned_data (data request)))
    (cd_login_password (UserLoginForm_cleaned_data (data request)))
  = None ->
  login_view request d
  = (d, [],
     Returned
       (render "login.html"
          {| form_data := Some (data request);
             form_errors :=
               [("__all__", ["Usuario o contraseña incorrectos."])] |})).
Proof.
  intros Hu Hm Hvalid Hauth.
  unfold login_view, is_authenticated. rewrite Hu, Hm. cbn.
  unfold bind at 1, lift, User_objects_all. cbn.
  rewrite Hvalid. cbn. rewrite Hauth. reflexivity.
Qed.

(** X26.  [logout_view] always redirects to the home page and never writes
    the tables; it ends the session exactly when the request is a POST. *)
Theorem logout_view_logs_out_on_post_only (d : db) (request : HttpRequest) :
  exists effects,
    logout_view request d
    = (d, effects, Returned (redirect "products:home"))
    /\ (In LoggedOut effects <-> method request = "POST").
Proof.
  unfold logout_view.
  destruct (String.eqb_spec (method request) "POST") as [Hm | Hm].
  - eexists. split; [reflexivity |]. split; [trivial |].
    intros _. now left.
  - exists []. split; [reflexivity |]. split; [intros [] | contradiction].
Qed.

(** X27.  A valid POST of an anonymous visitor to [register_view] creates
    the user with [create_user] from the cleaned data (missing first and
    last names as empty texts), logs that user in, queues the welcome
    message under the tag 'register-success' and redirects home; the token
    table is not touched, so the new user has no token of their own. *)
Theorem register_view_creates_and_logs_in (d : db) (request : HttpRequest)
        (rows : list User) (u : User) :
  let cleaned := UserRegistrationForm_cleaned_data (data request) in
  user request = None ->
  method request = "POST" ->
  UserRegistrationForm_errors (users d) (data request) = [] ->
  create_user (cd_username cleaned) (cd_email cleaned) (cd_password1 cleaned)
              (or_empty (cd_first_name cleaned))
              (or_empty (cd_last_name cleaned)) (users d)
  = (rows, Returned u) ->
  register_view request d
  = ({| users := rows; tokens := tokens d |},
     [LoggedIn u;
      Message "success"
              "Tu cuenta ha sido creada correctamente. ¡Bienvenido!"
              "register-success"],
     Returned (redirect "products:home")).
Proof.
  cbv zeta. intros Hu Hm Hvalid Hcreate.
  unfold register_view, is_authenticated. rewrite Hu, Hm. cbn.
  unfold bind at 1, lift, User_objects_all. cbn.
  rewrite Hvalid. cbn.
  unfold bind, lift, on_users. rewrite Hcreate. reflexivity.
Qed.

(** ** The token table under all eight views *)

Lemma form_views_keep_tokens (d : db) (request : HttpRequest) :
  tokens (fst (fst (register_view request d))) = tokens d
  /\ fst (fst (login_view request d)) = d
  /\ fst (fst (logout_view request d)) = d.
Proof.
  repeat split.
  - unfold register_view.
    destruct (is_authenticated request); [reflexivity |].
    destruct (method request =? "POST")%string; [| reflexivity].
    unfold bind at 1, lift, User_objects_all. cbn.
    destruct (Accounts.is_valid _); [| reflexivity].
    unfold bind, lift, on_users.
    destruct (create_user _ _ _ _ _ (users d)) as [rows [u | e]];
      reflexivity.
  - unfold login_view.
    destruct (is_authenticated request); [reflexivity |].
    destruct (method request =? "POST")%string; [| reflexivity].
    unfold bind at 1, lift, User_objects_all. cbn.
    destruct (Accounts.is_valid _); [| reflexivity].
    destruct (authenticate _ _ _); [| reflexivity].
    cbn. now destruct (negb _).
  - unfold logout_view.
    now destruct (method request =? "POST")%string.
Qed.

(** X28.  In every state reached from the empty tables by any sequence of
    calls of the eight views of the module, the five API views and the
    three form views, whatever the calls end in, no user has more than one
    token. *)
Theorem one_token_per_user_all_views {S : Serializers} (d : db) :
  AccountsWeb.reachable d -> at_most_one_token d.
Proof.
  induction 1 as [| d c _ IH].
  - intros uid. simpl. lia.
  - destruct c as [o | r | r | r]; cbn [AccountsWeb.step].
    + unfold Accounts.step. now apply AccountsProofs.one_token_dispatch.
    + intros uid.
      destruct (form_views_keep_tokens d r) as (-> & _ & _). apply IH.
    + now destruct (form_views_keep_tokens d r) as (_ & -> & _).
    + now destruct (form_views_keep_tokens d r) as (_ & _ & ->).
Qed.

End AnyForms.
(** ** The theorems at work *)

Lemma form_views_redirect_authenticated_witness :
  register_view (FM := ToyForms) (as_user ana "POST") ana_logged_in
  = (ana_logged_in, [], Returned (redirect "products:home"))
  /\ login_view (FM := ToyForms) (as_user ana "POST") ana_logged_in
     = (ana_logged_in, [], Returned (redirect "products:home")).
Proof.
  apply (form_views_redirect_authenticated (FM := ToyForms) ana_logged_in
           (as_user ana "POST") ana).
  reflexivity.
Defined.


Lemma login_view_bad_credentials_witness :
  login_view (FM := ToyForms)
             (post [("username", "ana"); ("password", "wrong")])
             ana_logged_out
  = (ana_logged_out, [],
     Returned
       (render "login.html"
          {| form_data := Some [("username", "ana"); ("password", "wrong")];
             form_errors :=
               [("__all__", ["Usuario o contraseña incorrectos."])] |})).
Proof.
  apply (login_view_bad_credentials (FM := ToyForms) ana_logged_out
           (post [("username", "ana"); ("password", "wrong")]));
    reflexivity.
Defined.

Lemma register_view_creates_and_logs_in_witness :
  let bea :=
    {| pk := 2; username := "bea"; email := "bea@example.org";
       password := "tag$s3cretpass"; first_name := ""; last_name := "" |} in
  register_view (FM := ToyForms)
                (post [("username", "bea"); ("email", "bea@example.org");
                       ("password1", "s3cretpass")])
                ana_logged_in
  = ({| users := [ana; bea]; tokens := tokens ana_logged_in |},
     [LoggedIn bea;
      Message "success"
              "Tu cuenta ha sido creada correctamente. ¡Bienvenido!"
              "register-success"],
     Returned (redirect "products:home")).
Proof.
  intros bea.
  apply (register_view_creates_and_logs_in (FM := ToyForms) ana_logged_in
           (post [("username", "bea"); ("email", "bea@example.org");
                  ("password1", "s3cretpass")])
           [ana; bea] bea);
    reflexivity.
Defined.

Lemma one_token_per_user_all_views_witness :
  at_most_one_token
    (AccountsWeb.step (FM := ToyForms) (S := TagSerializers)
       (AccountsWeb.step (FM := ToyForms) (S := TagSerializers)
          (AccountsWeb.step (FM := ToyForms) (S := TagSerializers) empty_db
             (RegisterView
                (post [("username", "ana"); ("email", "ana@example.org");
                       ("password1", "s3cretpass")])))
          (Api (Login "k1" (post ana_credentials))))
       (LogoutView (as_user ana "POST"))).
Proof.
  apply (one_token_per_user_all_views (FM := ToyForms) (S := TagSerializers)).
  repeat apply AccountsWeb.reachable_step.
  apply AccountsWeb.reachable_empty.
Defined.

End AccountsWebProofs.
